(** * BeagleG machine control: a shallow embedding of gcode-machine-control.c

    The C file turns the G-code parser's callbacks (coordinated move, rapid
    move, home, set speed factor) into step commands for the motor queue.
    This development embeds the handlers as functions on an explicit
    [PrinterState], with

    - C [int] as [Z] with 32-bit two's-complement wrap-around written out,
    - C [float] and [double] as IEEE-754 binary32 and binary64 values, using
      the executable operations of [SpecFloat] (round to nearest even),
    - the fixed-size arrays [T x[GCODE_NUM_AXES]] as four-slot arrays whose
      indexing returns [option], so that an access outside the array is the
      visible result [None],
    - [fprintf], [beagleg_enqueue] and [beagleg_wait_queue_empty] as events
      appended to an output list.

    [None] stands for an execution C leaves undefined: an array access out
    of bounds or a float-to-int conversion whose value does not fit.  A
    float expression is evaluated in the format of its type
    (FLT_EVAL_METHOD 0, as on the ARM the program is written for). *)

From Stdlib Require Import ZArith List Bool Lia.
From Stdlib Require Import Floats.SpecFloat.
From Stdlib Require Ascii String.
Import ListNotations.
Open Scope Z_scope.

(** ** The option monad of possibly undefined executions *)

Definition bind {A B : Type} (m : option A) (k : A -> option B) : option B :=
  match m with
  | Some a => k a
  | None => None
  end.

Notation "x <- m ;; k" := (bind m (fun x => k))
  (at level 61, m at next level, right associativity).
Notation "' p <- m ;; k" := (bind m (fun x => let p := x in k))
  (at level 61, p pattern, m at next level, right associativity).

(** [for (int i = start; i < start + n; ++i) body], threading the variables
    the body assigns. *)
Fixpoint for_loop {S : Type} (n : nat) (i : nat)
         (body : nat -> S -> option S) (s : S) : option S :=
  match n with
  | O => Some s
  | Datatypes.S n' => s' <- body i s ;; for_loop n' (Datatypes.S i) body s'
  end.

(** ** C int *)

Module Int.
Definition min_signed : Z := - 2 ^ 31.
Definition max_signed : Z := 2 ^ 31 - 1.
Definition modulus : Z := 2 ^ 32.

Definition in_range (z : Z) : Prop := min_signed <= z <= max_signed.
Definition in_rangeb (z : Z) : bool :=
  (min_signed <=? z) && (z <=? max_signed).

(** The representative of [z] modulo 2^32 in the signed range. *)
Definition wrap (z : Z) : Z := (z + 2 ^ 31) mod modulus - 2 ^ 31.

Definition sub (a b : Z) : Z := wrap (a - b).
Definition mul (a b : Z) : Z := wrap (a * b).
Definition neg (a : Z) : Z := wrap (- a).
(** [abs] of stdlib.h. *)
Definition abs (a : Z) : Z := wrap (Z.abs a).
End Int.

(** ** C float and double *)

Definition float32 := spec_float.
Definition float64 := spec_float.

(** Operations shared by the two formats: [prec] is the width of the
    mantissa and [emax] the exponent of the infinities. *)
Section Format.
Variables prec emax : Z.

(** Conversion from an integer, rounding to nearest even. *)
Definition float_of_int (z : Z) : spec_float :=
  binary_normalize prec emax z 0 false.

(** Conversion from the other format, rounding to nearest even (exact when
    widening). *)
Definition float_of_float (x : spec_float) : spec_float :=
  match x with
  | S754_finite s m e => binary_round prec emax s m e
  | _ => x
  end.

(** The value of the decimal literal [n/d] for exactly representable [n]
    and [d]: the correctly rounded quotient. *)
Definition float_of_ratio (n d : Z) : spec_float :=
  SFdiv prec emax (float_of_int n) (float_of_int d).
End Format.

(** C [float]: binary32. *)
Module F32.
Definition prec : Z := 24.
Definition emax : Z := 128.
Definition zero : float32 := S754_zero false.
Definition of_int : Z -> float32 := float_of_int prec emax.
Definition of_float : float64 -> float32 := float_of_float prec emax.
Definition of_ratio : Z -> Z -> float32 := float_of_ratio prec emax.
Definition add : float32 -> float32 -> float32 := SFadd prec emax.
Definition mul : float32 -> float32 -> float32 := SFmul prec emax.
Definition div : float32 -> float32 -> float32 := SFdiv prec emax.
Definition ltb : float32 -> float32 -> bool := SFltb.
Definition eqb : float32 -> float32 -> bool := SFeqb.
End F32.

(** C [double]: binary64. *)
Module F64.
Definition prec : Z := 53.
Definition emax : Z := 1024.
Definition of_int : Z -> float64 := float_of_int prec emax.
Definition of_float : float32 -> float64 := float_of_float prec emax.
Definition of_ratio : Z -> Z -> float64 := float_of_ratio prec emax.
Definition add : float64 -> float64 -> float64 := SFadd prec emax.
Definition mul : float64 -> float64 -> float64 := SFmul prec emax.
Definition div : float64 -> float64 -> float64 := SFdiv prec emax.
Definition sqrt : float64 -> float64 := SFsqrt prec emax.
Definition ltb : float64 -> float64 -> bool := SFltb.
End F64.

(** The integer part of a float, rounding toward zero; undefined for NaN and
    the infinities. *)
Definition float_trunc (x : spec_float) : option Z :=
  match x with
  | S754_zero _ => Some 0
  | S754_finite s m e =>
      let v := match e with
               | Z0 => Zpos m
               | Zpos _ => Zpos m * 2 ^ e
               | Zneg p => Zpos m / 2 ^ Zpos p
               end in
      Some (if s then - v else v)
  | S754_infinity _ | S754_nan => None
  end.

(** The conversion [(int) x]: C leaves it undefined when the truncated value
    is not representable in [int]. *)
Definition float_to_int (x : spec_float) : option Z :=
  v <- float_trunc x ;;
  if Int.in_rangeb v then Some v else None.

(** ** Arrays of GCODE_NUM_AXES elements *)

(** Modelled from the spec: gcode-parser.h, which declares the axis
    enumeration, is not among the sources.  The spec names the four axes
    X, Y, Z and E (a step command is [steps=(100,0,0,0)]) and the source
    prints [command.steps[0..3]] as X, Y, Z and E. *)
Definition GCODE_NUM_AXES : nat := 4.
Definition AXIS_X : nat := 0.
Definition AXIS_Y : nat := 1.
Definition AXIS_Z : nat := 2.
Definition AXIS_E : nat := 3.

Record axes (A : Type) : Type := mk_axes { ax0 : A; ax1 : A; ax2 : A; ax3 : A }.
Arguments mk_axes {A} _ _ _ _.
Arguments ax0 {A} _.
Arguments ax1 {A} _.
Arguments ax2 {A} _.
Arguments ax3 {A} _.

(** [a[i]] *)
Definition aget {A : Type} (i : nat) (a : axes A) : option A :=
  match i with
  | 0%nat => Some (ax0 a)
  | 1%nat => Some (ax1 a)
  | 2%nat => Some (ax2 a)
  | 3%nat => Some (ax3 a)
  | _ => None
  end.

(** [a[i] = v] *)
Definition aset {A : Type} (i : nat) (v : A) (a : axes A) : option (axes A) :=
  match i with
  | 0%nat => Some (mk_axes v (ax1 a) (ax2 a) (ax3 a))
  | 1%nat => Some (mk_axes (ax0 a) v (ax2 a) (ax3 a))
  | 2%nat => Some (mk_axes (ax0 a) (ax1 a) v (ax3 a))
  | 3%nat => Some (mk_axes (ax0 a) (ax1 a) (ax2 a) v)
  | _ => None
  end.

(** The result of [bzero] on an int array. *)
Definition azero : axes Z := mk_axes 0 0 0 0.

Definition amap2 {A B C : Type} (f : A -> B -> C) (a : axes A) (b : axes B) : axes C :=
  mk_axes (f (ax0 a) (ax0 b)) (f (ax1 a) (ax1 b))
          (f (ax2 a) (ax2 b)) (f (ax3 a) (ax3 b)).

Definition aall {A : Type} (P : A -> Prop) (a : axes A) : Prop :=
  P (ax0 a) /\ P (ax1 a) /\ P (ax2 a) /\ P (ax3 a).

(** ** Data model *)

(** Modelled from the spec: gcode-machine-control.h, which declares
    [struct MachineControlConfig], is not among the sources.  The fields are
    those the source reads.  The steps-per-millimeter are taken as [int]:
    the source assigns them to [int] variables and forces the float division
    with [1.0f *] when it divides by them; the feedrate, the speed factor and
    the acceleration are [float]. *)
Record MachineControlConfig : Type := {
  axis_steps_per_mm : axes Z;
  max_feedrate : float32;
  speed_factor : float32;
  acceleration : float32;
  dry_run : bool;
  debug_print : bool;
  synchronous : bool
}.

(** [struct PrinterState].  The parser handle plays no part in the handlers;
    [msg_stream] records whether the stream pointer is non-NULL. *)
Record PrinterState : Type := {
  cfg : MachineControlConfig;
  current_feedrate_mm_per_sec : float32;
  prog_speed_factor : float32;
  machine_position : axes Z;
  msg_stream : bool
}.

Definition set_current_feedrate (s : PrinterState) (f : float32) : PrinterState :=
  {| cfg := cfg s; current_feedrate_mm_per_sec := f;
     prog_speed_factor := prog_speed_factor s;
     machine_position := machine_position s; msg_stream := msg_stream s |}.

Definition set_prog_speed_factor (s : PrinterState) (f : float32) : PrinterState :=
  {| cfg := cfg s; current_feedrate_mm_per_sec := current_feedrate_mm_per_sec s;
     prog_speed_factor := f;
     machine_position := machine_position s; msg_stream := msg_stream s |}.

Definition set_machine_position (s : PrinterState) (p : axes Z) : PrinterState :=
  {| cfg := cfg s; current_feedrate_mm_per_sec := current_feedrate_mm_per_sec s;
     prog_speed_factor := prog_speed_factor s;
     machine_position := p; msg_stream := msg_stream s |}.

(** Modelled from the spec: motor-interface.h, which declares
    [struct bg_movement], is not among the sources.  A step command is the
    per-axis signed step delta and one scalar travel speed in steps per
    second, taken as a [float] (the computed speed "rounds to exactly zero"
    there); the source fills the first GCODE_NUM_AXES entries of [steps] and
    leaves any further motor at the zero of [bzero]. *)
Record bg_movement : Type := {
  steps : axes Z;
  travel_speed : float32
}.

(** The lines written to [msg_stream], with the values handed to [fprintf]. *)
Inductive message : Type :=
| MsgIgnoringSpeedZero (mm_per_sec : float32)
| MsgMoveWithZ (x y z e : Z) (step_khz : float64) (feedrate : float32)
| MsgMoveNoZ (x y e : Z) (step_khz : float64) (feedrate : float32)
| MsgSpeedFactorRejected (percent : float32)
| MsgHomingRequested (axes_bitmap : Z) (dx dy dz : Z).

(** The lines written to [stderr]. *)
Inductive stderr_message : Type :=
| AlreadyInitialized
| NeedRoot.

(** What a handler does to the world outside [PrinterState]. *)
Inductive event : Type :=
| WaitQueueEmpty                      (* beagleg_wait_queue_empty() *)
| Enqueue (command : bg_movement)     (* beagleg_enqueue(&command, ..) *)
| Print (m : message)                 (* fprintf(state->msg_stream, ..) *)
| PrintStderr (m : stderr_message)    (* fprintf(stderr, ..) *)
| BeaglegInit (acceleration_steps : float32).   (* beagleg_init(..) *)

Definition ZERO_FEEDRATE_OVERRIDE_HZ : Z := 5.

(** ** The handlers *)

Definition choose_max_abs (a b : Z) : Z :=
  if Int.abs a >? Int.abs b then Int.abs a else Int.abs b.

Definition euklid_distance (a b : float64) : float64 :=
  F64.sqrt (F64.add (F64.mul a a) (F64.mul b b)).

(** The first loop of [move_machine_steps]: copy the deltas into the zeroed
    command and note whether any is nonzero. *)
Definition copy_steps (machine_steps : axes Z) : option (axes Z * bool) :=
  for_loop GCODE_NUM_AXES 0%nat
    (fun i '(command_steps, any_work) =>
       s <- aget i machine_steps ;;
       command_steps' <- aset i s command_steps ;;
       Some (command_steps', if s =? 0 then any_work else true))
    (azero, false).

(** The travel speed [move_machine_steps] computes before it looks for a
    zero.  The product of the two ints is an int; times the float feedrate it
    is a float; the division by the double [euclid_steps] is a double
    division, and the assignment to the command rounds to float. *)
Definition computed_travel_speed (steps_per_mm : Z) (feedrate : float32)
           (sx sy : Z) : float32 :=
  let max_axis_steps := choose_max_abs sx sy in
  if max_axis_steps >? 0 then
    let euclid_steps := euklid_distance (F64.of_int sx) (F64.of_int sy) in
    F32.of_float
      (F64.div
         (F64.of_float
            (F32.mul (F32.of_int (Int.mul max_axis_steps steps_per_mm)) feedrate))
         euclid_steps)
  else
    F32.mul (F32.of_int steps_per_mm) feedrate.

Definition move_machine_steps (state : PrinterState) (feedrate : float32)
           (machine_steps : axes Z) : option (list event) :=
  '(command_steps, any_work) <- copy_steps machine_steps ;;
  if negb any_work then Some []
  else
    min_feedrate_relevant_steps_per_mm <-
      aget AXIS_X (axis_steps_per_mm (cfg state)) ;;
    sx <- aget AXIS_X command_steps ;;
    sy <- aget AXIS_Y command_steps ;;
    let speed0 :=
      computed_travel_speed min_feedrate_relevant_steps_per_mm feedrate sx sy in
    let is_zero := F32.eqb speed0 F32.zero in
    let override_msg :=
      if is_zero && msg_stream state then
        [Print (MsgIgnoringSpeedZero
                  (F32.div (F32.mul (F32.of_int 1)
                                    (F32.of_int ZERO_FEEDRATE_OVERRIDE_HZ))
                           (F32.of_int min_feedrate_relevant_steps_per_mm)))]
      else [] in
    let command :=
      {| steps := command_steps;
         travel_speed :=
           if is_zero then F32.of_int ZERO_FEEDRATE_OVERRIDE_HZ else speed0 |} in
    let queue :=
      if dry_run (cfg state) then []
      else (if synchronous (cfg state) then [WaitQueueEmpty] else [])
             ++ [Enqueue command] in
    s0 <- aget 0%nat command_steps ;;
    s1 <- aget 1%nat command_steps ;;
    s2 <- aget 2%nat command_steps ;;
    s3 <- aget 3%nat command_steps ;;
    let khz := F64.div (F64.of_float (travel_speed command)) (F64.of_int 1000) in
    let debug :=
      if debug_print (cfg state) && msg_stream state then
        if s2 =? 0 then [Print (MsgMoveNoZ s0 s1 s3 khz feedrate)]
        else [Print (MsgMoveWithZ s0 s1 s2 s3 khz feedrate)]
      else [] in
    Some (override_msg ++ queue ++ debug).

(** The first loop of [machine_move]: real world to machine coordinates. *)
Definition to_machine_position (state : PrinterState) (axis : axes float32)
  : option (axes Z) :=
  for_loop GCODE_NUM_AXES 0%nat
    (fun i new_machine_position =>
       a <- aget i axis ;;
       spm <- aget i (axis_steps_per_mm (cfg state)) ;;
       v <- float_to_int (F32.mul a (F32.of_int spm)) ;;
       aset i v new_machine_position)
    azero.

(** The second loop of [machine_move]. *)
Definition position_differences (state : PrinterState)
           (new_machine_position : axes Z) : option (axes Z) :=
  for_loop GCODE_NUM_AXES 0%nat
    (fun i differences =>
       n <- aget i new_machine_position ;;
       o <- aget i (machine_position state) ;;
       aset i (Int.sub n o) differences)
    azero.

Definition machine_move (state : PrinterState) (feedrate : float32)
           (axis : axes float32) : option (PrinterState * list event) :=
  new_machine_position <- to_machine_position state axis ;;
  differences <- position_differences state new_machine_position ;;
  out <- move_machine_steps state feedrate differences ;;
  Some (set_machine_position state new_machine_position, out).

(** The feedrate [machine_G1] hands to [machine_move], from the state after
    the assignment to [current_feedrate_mm_per_sec]. *)
Definition G1_feedrate (state : PrinterState) : float32 :=
  let feedrate :=
    F32.mul (prog_speed_factor state) (current_feedrate_mm_per_sec state) in
  if F32.ltb (max_feedrate (cfg state)) feedrate
  then max_feedrate (cfg state)
  else feedrate.

Definition machine_G1 (state : PrinterState) (feed : float32)
           (axis : axes float32) : option (PrinterState * list event) :=
  let state1 :=
    if F32.ltb F32.zero feed
    then set_current_feedrate state (F32.mul (speed_factor (cfg state)) feed)
    else state in
  machine_move state1 (G1_feedrate state1) axis.

Definition G0_feedrate (state : PrinterState) (feed : float32) : float32 :=
  let rapid_feed := max_feedrate (cfg state) in
  let given :=
    F32.mul (F32.mul (speed_factor (cfg state)) (prog_speed_factor state)) feed in
  if F32.ltb F32.zero feed && F32.ltb given (max_feedrate (cfg state))
  then given
  else rapid_feed.

Definition machine_G0 (state : PrinterState) (feed : float32)
           (axis : axes float32) : option (PrinterState * list event) :=
  machine_move state (G0_feedrate state feed) axis.

(** The factor [machine_set_speed_factor] considers: [M220 S-10] is read as
    90%. *)
Definition requested_speed_factor (value : float32) : float32 :=
  if F32.ltb value F32.zero then F32.add (F32.of_int 1) value else value.

(** The literal [0.005] is a double, so the comparison promotes [value]. *)
Definition below_speed_factor_floor (value : float32) : bool :=
  F64.ltb (F64.of_float value) (F64.of_ratio 5 1000).

Definition machine_set_speed_factor (state : PrinterState) (value : float32)
  : PrinterState * list event :=
  let value := requested_speed_factor value in
  if below_speed_factor_floor value then
    (state,
     if msg_stream state
     then [Print (MsgSpeedFactorRejected (F32.mul (F32.of_int 100) value))]
     else [])
  else (set_prog_speed_factor state value, []).

(** [(1 << i) & axes_bitmap] *)
Definition bitmap_has (axes_bitmap : Z) (i : nat) : bool :=
  negb (Z.land (Z.shiftl 1 (Z.of_nat i)) axes_bitmap =? 0).

(** The loop of [machine_home], whose bound is [i <= GCODE_NUM_AXES]: it
    assigns both the local [machine_pos_differences] and
    [state->machine_position]. *)
Definition home_loop (axes_bitmap : Z) (position : axes Z)
  : option (axes Z * axes Z) :=
  for_loop (S GCODE_NUM_AXES) 0%nat
    (fun i '(machine_pos_differences, position) =>
       if bitmap_has axes_bitmap i then
         machine_pos_differences' <-
           (if negb (Nat.eqb i AXIS_E) then
              p <- aget i position ;;
              aset i (Int.neg p) machine_pos_differences
            else Some machine_pos_differences) ;;
         position' <- aset i 0 position ;;
         Some (machine_pos_differences', position')
       else Some (machine_pos_differences, position))
    (azero, position).

Definition machine_home (state : PrinterState) (axes_bitmap : Z)
  : option (PrinterState * list event) :=
  '(machine_pos_differences, position) <-
    home_loop axes_bitmap (machine_position state) ;;
  let state := set_machine_position state position in
  dx <- aget AXIS_X machine_pos_differences ;;
  dy <- aget AXIS_Y machine_pos_differences ;;
  dz <- aget AXIS_Z machine_pos_differences ;;
  let homing_msg :=
    if msg_stream state
    then [Print (MsgHomingRequested axes_bitmap dx dy dz)]
    else [] in
  out <- move_machine_steps state (max_feedrate (cfg state))
                            machine_pos_differences ;;
  Some (state, homing_msg ++ out).

(** What [gcode_machine_control_init] asks of its surroundings: the
    effective user id and the result of [beagleg_init]. *)
Record Environment : Type := {
  geteuid : Z;
  beagleg_init : float32 -> Z
}.

(** [gcode_machine_control_init], on the singleton [s_mstate]: the result is
    the return value, the new [s_mstate] and the events. *)
Definition gcode_machine_control_init (env : Environment)
           (config : MachineControlConfig) (s_mstate : option PrinterState)
  : Z * option PrinterState * list event :=
  match s_mstate with
  | Some _ => (1, s_mstate, [PrintStderr AlreadyInitialized])
  | None =>
      let fresh :=
        {| cfg := config;
           current_feedrate_mm_per_sec :=
             F32.div (max_feedrate config) (F32.of_int 10);
           prog_speed_factor := F32.of_int 1;
           machine_position := azero;
           msg_stream := false |} in
      if negb (dry_run config) then
        if negb (geteuid env =? 0) then (1, None, [PrintStderr NeedRoot])
        else
          let steps_per_mm := ax0 (axis_steps_per_mm config) in
          let arg := F32.mul (acceleration config) (F32.of_int steps_per_mm) in
          if negb (beagleg_init env arg =? 0) then (1, None, [BeaglegInit arg])
          else (0, Some fresh, [BeaglegInit arg])
      else (0, Some fresh, [])
  end.

(** ** The parser's callbacks as a command stream *)

Inductive callback : Type :=
| coordinated_move (feed : float32) (axis : axes float32)
| rapid_move (feed : float32) (axis : axes float32)
| go_home (axes_bitmap : Z)
| set_speed_factor (value : float32).

Definition dispatch (state : PrinterState) (c : callback)
  : option (PrinterState * list event) :=
  match c with
  | coordinated_move feed axis => machine_G1 state feed axis
  | rapid_move feed axis => machine_G0 state feed axis
  | go_home axes_bitmap => machine_home state axes_bitmap
  | set_speed_factor value => Some (machine_set_speed_factor state value)
  end.

(** The callbacks of a parsed stream, in order. *)
Fixpoint run (state : PrinterState) (cs : list callback)
  : option (PrinterState * list event) :=
  match cs with
  | [] => Some (state, [])
  | c :: cs' =>
      '(state1, out1) <- dispatch state c ;;
      '(state2, out2) <- run state1 cs' ;;
      Some (state2, out1 ++ out2)
  end.

(** ** Auxiliary definitions for the statements *)

Definition all_zero (a : axes Z) : bool :=
  (ax0 a =? 0) && (ax1 a =? 0) && (ax2 a =? 0) && (ax3 a =? 0).

(** The command [move_machine_steps] builds when there is work. *)
Definition built_command (state : PrinterState) (feedrate : float32)
           (s : axes Z) : bg_movement :=
  let speed0 :=
    computed_travel_speed (ax0 (axis_steps_per_mm (cfg state))) feedrate
                          (ax0 s) (ax1 s) in
  {| steps := s;
     travel_speed :=
       if F32.eqb speed0 F32.zero
       then F32.of_int ZERO_FEEDRATE_OVERRIDE_HZ else speed0 |}.

Definition override_events (state : PrinterState) (feedrate : float32)
           (s : axes Z) : list event :=
  let spm := ax0 (axis_steps_per_mm (cfg state)) in
  if F32.eqb (computed_travel_speed spm feedrate (ax0 s) (ax1 s)) F32.zero
     && msg_stream state
  then [Print (MsgIgnoringSpeedZero
                 (F32.div (F32.mul (F32.of_int 1)
                                   (F32.of_int ZERO_FEEDRATE_OVERRIDE_HZ))
                          (F32.of_int spm)))]
  else [].

Definition queue_events (state : PrinterState) (command : bg_movement)
  : list event :=
  if dry_run (cfg state) then []
  else (if synchronous (cfg state) then [WaitQueueEmpty] else [])
         ++ [Enqueue command].

Definition debug_events (state : PrinterState) (feedrate : float32)
           (command : bg_movement) : list event :=
  let s := steps command in
  let khz := F64.div (F64.of_float (travel_speed command)) (F64.of_int 1000) in
  if debug_print (cfg state) && msg_stream state then
    if ax2 s =? 0 then [Print (MsgMoveNoZ (ax0 s) (ax1 s) (ax3 s) khz feedrate)]
    else [Print (MsgMoveWithZ (ax0 s) (ax1 s) (ax2 s) (ax3 s) khz feedrate)]
  else [].

(** The two arrays the loop of [machine_home] leaves when it stays inside
    them. *)
Definition home_differences (axes_bitmap : Z) (p : axes Z) : axes Z :=
  mk_axes (if bitmap_has axes_bitmap AXIS_X then Int.neg (ax0 p) else 0)
          (if bitmap_has axes_bitmap AXIS_Y then Int.neg (ax1 p) else 0)
          (if bitmap_has axes_bitmap AXIS_Z then Int.neg (ax2 p) else 0)
          0.

Definition home_position (axes_bitmap : Z) (p : axes Z) : axes Z :=
  mk_axes (if bitmap_has axes_bitmap AXIS_X then 0 else ax0 p)
          (if bitmap_has axes_bitmap AXIS_Y then 0 else ax1 p)
          (if bitmap_has axes_bitmap AXIS_Z then 0 else ax2 p)
          (if bitmap_has axes_bitmap AXIS_E then 0 else ax3 p).

(** The travel speed as the specification words it:
    [max(|dx|,|dy|) * steps_per_mm_x * feedrate / sqrt(dx^2 + dy^2)] when
    [max(|dx|,|dy|) > 0], and [steps_per_mm_x * feedrate] otherwise.  The
    integers are the mathematical ones; the float operations are those of
    the C expression. *)
Definition claimed_travel_speed (steps_per_mm : Z) (feedrate : float32)
           (dx dy : Z) : float32 :=
  let max_axis_steps := Z.max (Z.abs dx) (Z.abs dy) in
  if 0 <? max_axis_steps then
    F32.of_float
      (F64.div
         (F64.of_float (F32.mul (F32.of_int (max_axis_steps * steps_per_mm))
                                feedrate))
         (F64.sqrt (F64.add (F64.mul (F64.of_int dx) (F64.of_int dx))
                            (F64.mul (F64.of_int dy) (F64.of_int dy)))))
  else F32.mul (F32.of_int steps_per_mm) feedrate.

Definition is_move (c : callback) : bool :=
  match c with
  | coordinated_move _ _ | rapid_move _ _ => true
  | _ => false
  end.

(** The step deltas a move to [axis] hands to [move_machine_steps]. *)
Definition move_differences (state : PrinterState) (axis : axes float32)
  : option (axes Z) :=
  new_machine_position <- to_machine_position state axis ;;
  position_differences state new_machine_position.

(** The sum, over the moves of a stream, of the step deltas each one
    computes, as mathematical integers. *)
Fixpoint net_displacement (state : PrinterState) (cs : list callback)
  : option (axes Z) :=
  match cs with
  | [] => Some azero
  | c :: cs' =>
      d <- match c with
           | coordinated_move _ axis | rapid_move _ axis =>
               move_differences state axis
           | _ => Some azero
           end ;;
      '(state1, _) <- dispatch state c ;;
      rest <- net_displacement state1 cs' ;;
      Some (amap2 Z.add d rest)
  end.

(** The sum of the step deltas of the commands handed to the queue. *)
Fixpoint submitted_steps (out : list event) : axes Z :=
  match out with
  | [] => azero
  | Enqueue command :: out' => amap2 Z.add (steps command) (submitted_steps out')
  | _ :: out' => submitted_steps out'
  end.

(** What a rejected speed factor writes to the message stream. *)
Definition speed_factor_rejection (state : PrinterState) (requested : float32)
  : list event :=
  if msg_stream state
  then [Print (MsgSpeedFactorRejected (F32.mul (F32.of_int 100) requested))]
  else [].

(** Two integers that agree modulo 2^32. *)
Definition congruent (x y : Z) : Prop := exists k, x = y + k * Int.modulus.

Definition aall2 {A B : Type} (R : A -> B -> Prop) (a : axes A) (b : axes B)
  : Prop :=
  R (ax0 a) (ax0 b) /\ R (ax1 a) (ax1 b) /\ R (ax2 a) (ax2 b) /\ R (ax3 a) (ax3 b).

(** The scenario of the specification: 10 steps per millimeter on every axis,
    a maximum feedrate of 200 mm/s and a speed factor of 1.0, in the state
    [gcode_machine_control_init] creates, with the given flags and message
    stream. *)
Module Scenario.
Definition config (dry dbg sync : bool) : MachineControlConfig :=
  {| axis_steps_per_mm := mk_axes 10 10 10 10;
     max_feedrate := F32.of_int 200;
     speed_factor := F32.of_int 1;
     acceleration := F32.of_int 4000;
     dry_run := dry;
     debug_print := dbg;
     synchronous := sync |}.

Definition state (dry dbg sync msg : bool) (feedrate : float32)
           (position : axes Z) : PrinterState :=
  {| cfg := config dry dbg sync;
     current_feedrate_mm_per_sec := feedrate;
     prog_speed_factor := F32.of_int 1;
     machine_position := position;
     msg_stream := msg |}.

Definition initial (dry dbg sync msg : bool) : PrinterState :=
  state dry dbg sync msg (F32.div (F32.of_int 200) (F32.of_int 10)) azero.

Definition root : Environment :=
  {| geteuid := 0; beagleg_init := fun _ => 0 |}.

(** The target X=10, Y=0, Z=0, E=0 in millimeters, and the origin. *)
Definition x10 : axes float32 :=
  mk_axes (F32.of_int 10) F32.zero F32.zero F32.zero.
Definition origin : axes float32 :=
  mk_axes F32.zero F32.zero F32.zero F32.zero.

(** The state after the move to [x10]. *)
Definition at_x10 (dry dbg sync msg : bool) (feedrate : float32) : PrinterState :=
  state dry dbg sync msg feedrate (mk_axes 100 0 0 0).
End Scenario.

(** ** The remaining handlers and the life cycle *)

(** The lines the remaining handlers write to [msg_stream], with the values
    handed to [fprintf]. *)
Inductive reply : Type :=
| NotImplementedTemperature (f : float32)
| NotImplementedFanspeed (speed : float32)
| NotImplementedWaitTemperature
| NotImplementedDisableMotors
| OkTemperature                          (* "ok T-300" *)
| OkPosition (x y z e : float32)         (* "ok C: X:.. Y:.. Z.. E.." *)
| OkVersion                              (* "ok " VERSION_STRING *)
| NotUnderstood (letter : Ascii.ascii) (value : Z) (remaining : String.string).

(** The lines the life cycle functions write to [stderr]. *)
Inductive lifecycle_message : Type :=
| ExitWithoutInit
| SkippingQueue
| NotInitialized
| OpeningGcodeStream.

(** Everything the program does to the world outside its own state. *)
Inductive action : Type :=
| Motor (e : event)
| Reply (r : reply)                  (* fprintf(state->msg_stream, ..) *)
| Usleep (usec : Z)                  (* usleep(..) *)
| BeaglegExit                        (* beagleg_exit() *)
| BeaglegExitNowait                  (* beagleg_exit_nowait() *)
| Stderr (m : lifecycle_message).    (* fprintf(stderr, ..), perror(..) *)

Definition set_msg_stream (s : PrinterState) (m : bool) : PrinterState :=
  {| cfg := cfg s; current_feedrate_mm_per_sec := current_feedrate_mm_per_sec s;
     prog_speed_factor := prog_speed_factor s;
     machine_position := machine_position s; msg_stream := m |}.

Definition dummy_set_temperature (state : PrinterState) (f : float32)
  : list action :=
  if msg_stream state then [Reply (NotImplementedTemperature f)] else [].

Definition dummy_set_fanspeed (state : PrinterState) (speed : float32)
  : list action :=
  if msg_stream state then [Reply (NotImplementedFanspeed speed)] else [].

Definition dummy_wait_temperature (state : PrinterState) : list action :=
  if msg_stream state then [Reply NotImplementedWaitTemperature] else [].

Definition dummy_disable_motors (state : PrinterState) : list action :=
  if msg_stream state then [Reply NotImplementedDisableMotors] else [].

(** [1.0f * machine_position[i] / axis_steps_per_mm[i]] of the position
    report. *)
Definition reported_mm (state : PrinterState) (i : nat) : option float32 :=
  p <- aget i (machine_position state) ;;
  spm <- aget i (axis_steps_per_mm (cfg state)) ;;
  Some (F32.div (F32.mul (F32.of_int 1) (F32.of_int p)) (F32.of_int spm)).

(** [special_commands] returns NULL on every path; what remains is the line
    it writes.  The switch converts [value] to int only after the test of
    [msg_stream]. *)
Definition special_commands (state : PrinterState) (letter : Ascii.ascii)
           (value : float32) (remaining : String.string)
  : option (list action) :=
  if negb (msg_stream state) then Some []
  else
    code <- float_to_int value ;;
    if code =? 105 then Some [Reply OkTemperature]
    else if code =? 114 then
      x <- reported_mm state AXIS_X ;;
      y <- reported_mm state AXIS_Y ;;
      z <- reported_mm state AXIS_Z ;;
      e <- reported_mm state AXIS_E ;;
      Some [Reply (OkPosition x y z e)]
    else if code =? 115 then Some [Reply OkVersion]
    else Some [Reply (NotUnderstood letter code remaining)].

(** [usleep] is handed the int [(int) (value * 1000)]. *)
Definition machine_dwell (state : PrinterState) (value : float32)
  : option (list action) :=
  let wait := if dry_run (cfg state) then [] else [Motor WaitQueueEmpty] in
  usec <- float_to_int (F32.mul value (F32.of_int 1000)) ;;
  Some (wait ++ [Usleep usec]).

(** All the callbacks [gcode_machine_control_init] registers with the
    parser; [motion] wraps the four that move the machine or set its speed
    factor. *)
Inductive parser_callback : Type :=
| motion (c : callback)
| dwell (value : float32)
| set_fanspeed (speed : float32)
| set_temperature (f : float32)
| wait_temperature
| disable_motors
| unprocessed (letter : Ascii.ascii) (value : float32)
              (remaining : String.string).

Definition handle (state : PrinterState) (c : parser_callback)
  : option (PrinterState * list action) :=
  match c with
  | motion c =>
      '(state1, out) <- dispatch state c ;; Some (state1, map Motor out)
  | dwell value => out <- machine_dwell state value ;; Some (state, out)
  | set_fanspeed speed => Some (state, dummy_set_fanspeed state speed)
  | set_temperature f => Some (state, dummy_set_temperature state f)
  | wait_temperature => Some (state, dummy_wait_temperature state)
  | disable_motors => Some (state, dummy_disable_motors state)
  | unprocessed letter value remaining =>
      out <- special_commands state letter value remaining ;;
      Some (state, out)
  end.

(** The callbacks the parser makes, in order. *)
Fixpoint handle_all (state : PrinterState) (cs : list parser_callback)
  : option (PrinterState * list action) :=
  match cs with
  | [] => Some (state, [])
  | c :: cs' =>
      '(state1, out1) <- handle state c ;;
      '(state2, out2) <- handle_all state1 cs' ;;
      Some (state2, out1 ++ out2)
  end.

(** The two globals of the file. *)
Record Globals : Type := {
  s_mstate : option PrinterState;
  caught_signal : bool
}.

Definition gcode_machine_control_exit (g : Globals) : Globals * list action :=
  match s_mstate g with
  | None => (g, [Stderr ExitWithoutInit])
  | Some state =>
      ({| s_mstate := None; caught_signal := caught_signal g |},
       if negb (dry_run (cfg state)) then
         if caught_signal g then [Stderr SkippingQueue; BeaglegExitNowait]
         else [BeaglegExit]
       else [])
  end.

(** What one call of [gcode_machine_control_from_stream] meets.  The parser
    is outside this file: a line of the input stands as the callbacks
    [gcodep_parse_line] makes for it.  [signal_after] is the number of lines
    handled when [receive_signal] has set [caught_signal], if a signal
    arrives while the handlers are armed. *)
Record Stream : Type := {
  output_fd : Z;
  output_opens : bool;          (* fdopen(output_fd, "w") is not NULL *)
  gcode_opens : bool;           (* fdopen(gcode_fd, "r") is not NULL *)
  lines : list (list parser_callback);
  signal_after : option nat
}.

(** The lines the loop reads before it sees [caught_signal] or the end of
    the input. *)
Definition lines_read (io : Stream) : list (list parser_callback) :=
  match signal_after io with
  | Some n => firstn n (lines io)
  | None => lines io
  end.

Definition signalled (io : Stream) : bool :=
  match signal_after io with
  | Some _ => true
  | None => false
  end.

(** The result is the return value, the globals and the actions. *)
Definition gcode_machine_control_from_stream (io : Stream) (g : Globals)
  : option (Z * Globals * list action) :=
  match s_mstate g with
  | None => Some (1, g, [Stderr NotInitialized])
  | Some state =>
      let state :=
        if output_fd io >=? 0 then set_msg_stream state (output_opens io)
        else state in
      if negb (gcode_opens io) then
        Some (1, {| s_mstate := Some state; caught_signal := caught_signal g |},
              [Stderr OpeningGcodeStream])
      else
        '(state, out) <- handle_all state (concat (lines_read io)) ;;
        Some (if signalled io then 2 else 0,
              {| s_mstate := Some (set_msg_stream state false);
                 caught_signal := signalled io |},
              out)
  end.

(** ** Auxiliary definitions for the further properties *)

Definition motor_events (out : list action) : list event :=
  flat_map (fun a => match a with Motor e => [e] | _ => [] end) out.

Definition touches_queue (a : action) : bool :=
  match a with
  | Motor WaitQueueEmpty | Motor (Enqueue _) => true
  | _ => false
  end.

Definition writes_message (a : action) : bool :=
  match a with
  | Motor (Print _) | Reply _ => true
  | _ => false
  end.

(** What an action says about the state it comes from. *)
Definition allowed (state : PrinterState) (a : action) : Prop :=
  match a with
  | Motor (Print _) | Reply _ => msg_stream state = true
  | Motor WaitQueueEmpty | Motor (Enqueue _) => dry_run (cfg state) = false
  | Usleep _ => True
  | _ => False
  end.

(** Every command handed to the queue comes directly after a wait for the
    empty queue; [waited] tells whether the action before the list was that
    wait. *)
Fixpoint enqueues_after_wait (waited : bool) (out : list action) : bool :=
  match out with
  | [] => true
  | Motor (Enqueue _) :: out' => waited && enqueues_after_wait false out'
  | Motor WaitQueueEmpty :: out' => enqueues_after_wait true out'
  | _ :: out' => enqueues_after_wait false out'
  end.

Definition move_target (c : callback) : option (axes float32) :=
  match c with
  | coordinated_move _ axis | rapid_move _ axis => Some axis
  | _ => None
  end.

Definition homes_extruder (c : parser_callback) : bool :=
  match c with
  | motion (go_home axes_bitmap) => bitmap_has axes_bitmap AXIS_E
  | _ => false
  end.

Definition is_dwell (c : parser_callback) : bool :=
  match c with
  | dwell _ => true
  | _ => false
  end.

Definition is_ok_reply (r : reply) : bool :=
  match r with
  | OkTemperature | OkPosition _ _ _ _ | OkVersion => true
  | _ => false
  end.

(** The callbacks that assign [current_feedrate_mm_per_sec]: a coordinated
    move with a positive feed. *)
Definition sets_feedrate (c : parser_callback) : bool :=
  match c with
  | motion (coordinated_move feed _) => F32.ltb F32.zero feed
  | _ => false
  end.

(** The callbacks that move the machine: the two moves and the home. *)
Definition moves_machine (c : parser_callback) : bool :=
  match c with
  | motion (coordinated_move _ _) | motion (rapid_move _ _)
  | motion (go_home _) => true
  | _ => false
  end.

(** The same stream with other input lines. *)
Definition with_lines (io : Stream) (ls : list (list parser_callback))
  : Stream :=
  {| output_fd := output_fd io; output_opens := output_opens io;
     gcode_opens := gcode_opens io; lines := ls;
     signal_after := signal_after io |}.

(** A second session: a machine that is not run dry, with a message stream
    as the flag says. *)
Module Session.
Definition live (msg : bool) : PrinterState :=
  Scenario.initial false false false msg.

Definition square : list parser_callback :=
  [motion (coordinated_move (F32.of_int 50) Scenario.x10);
   dwell (F32.of_int 2);
   unprocessed (Ascii.ascii_of_nat 77) (F32.of_int 114) String.EmptyString;
   motion (go_home 3);
   set_fanspeed (F32.of_int 255)].

Definition stream (ls : list (list parser_callback)) (sig : option nat)
  : Stream :=
  {| output_fd := 1; output_opens := true; gcode_opens := true;
     lines := ls; signal_after := sig |}.

Definition started (state : PrinterState) : Globals :=
  {| s_mstate := Some state; caught_signal := false |}.
End Session.

(** * Properties *)

(** ** C int arithmetic *)

Module IntFacts.
Import Int.

Lemma wrap_in_range (z : Z) : in_range (wrap z).
Proof.
  unfold in_range, wrap, min_signed, max_signed, modulus.
  pose proof (Z.mod_pos_bound (z + 2 ^ 31) (2 ^ 32) ltac:(lia)). lia.
Qed.

Lemma wrap_small (z : Z) : in_range z -> wrap z = z.
Proof.
  unfold in_range, wrap, min_signed, max_signed, modulus. intros H.
  rewrite Z.mod_small; lia.
Qed.

(** [wrap z] differs from [z] by a multiple of 2^32. *)
Lemma wrap_multiple (z : Z) : exists k, wrap z = z + k * modulus.
Proof.
  unfold wrap. exists (- ((z + 2 ^ 31) / modulus)).
  pose proof (Z.div_mod (z + 2 ^ 31) modulus ltac:(unfold modulus; lia)). lia.
Qed.

Lemma in_range_congruent (x y k : Z) :
  in_range x -> in_range y -> x = y + k * modulus -> x = y.
Proof.
  unfold in_range, min_signed, max_signed, modulus. intros Hx Hy E.
  assert (k = 0) by lia. subst k. lia.
Qed.

Lemma neg_zero : neg 0 = 0.
Proof. reflexivity. Qed.

Lemma in_rangeb_spec (z : Z) : in_rangeb z = true <-> in_range z.
Proof.
  unfold in_rangeb, in_range. rewrite andb_true_iff, !Z.leb_le. tauto.
Qed.
End IntFacts.

(** ** Float comparison *)

Lemma SFcompare_antisym (x y : spec_float) :
  SFcompare y x = option_map CompOpp (SFcompare x y).
Proof.
  destruct x as [sx|sx| |sx mx ex], y as [sy|sy| |sy my ey];
    try destruct sx; try destruct sy; try reflexivity.
  all: cbn [SFcompare option_map]; f_equal.
  all: rewrite (Z.compare_antisym ey ex); destruct (ey ?= ex); cbn [CompOpp];
    try reflexivity.
  all: change (PosDef.Pos.compare_cont Eq my mx) with (Pos.compare my mx);
    change (PosDef.Pos.compare_cont Eq mx my) with (Pos.compare mx my);
    rewrite (Pos.compare_antisym mx my).
  - now rewrite CompOpp_involutive.
  - reflexivity.
Qed.

Lemma SFltb_asym (x y : spec_float) : SFltb x y = true -> SFltb y x = false.
Proof.
  unfold SFltb. rewrite (SFcompare_antisym x y).
  destruct (SFcompare x y) as [[]|]; cbn; congruence.
Qed.

Lemma SFltb_irrefl (x : spec_float) : SFltb x x = false.
Proof.
  destruct (SFltb x x) eqn:E; [|reflexivity].
  now rewrite (SFltb_asym _ _ E) in E.
Qed.

(** ** The step loop and [move_machine_steps] in closed form *)

Lemma all_zero_spec (a : axes Z) : all_zero a = true <-> a = azero.
Proof.
  destruct a as [a b c d]. unfold all_zero, azero. cbn [ax0 ax1 ax2 ax3].
  rewrite !andb_true_iff, !Z.eqb_eq. split.
  - intros [[[-> ->] ->] ->]. reflexivity.
  - intros E. injection E as -> -> -> ->. auto.
Qed.

Lemma copy_steps_eq (s : axes Z) : copy_steps s = Some (s, negb (all_zero s)).
Proof.
  destruct s as [a b c d]. unfold copy_steps, all_zero, azero.
  cbn [for_loop GCODE_NUM_AXES bind aget aset ax0 ax1 ax2 ax3].
  destruct (a =? 0), (b =? 0), (c =? 0), (d =? 0); reflexivity.
Qed.

Lemma move_machine_steps_eq (state : PrinterState) (feedrate : float32)
      (s : axes Z) :
  move_machine_steps state feedrate s =
  Some (if all_zero s then []
        else override_events state feedrate s
               ++ queue_events state (built_command state feedrate s)
               ++ debug_events state feedrate (built_command state feedrate s)).
Proof.
  unfold move_machine_steps. rewrite copy_steps_eq. cbn [bind].
  rewrite negb_involutive. destruct (all_zero s); [reflexivity|].
  reflexivity.
Qed.

(** ** The loops of [machine_move] *)

Lemma to_machine_position_eq (state : PrinterState) (axis : axes float32) :
  to_machine_position state axis =
  (let spm := axis_steps_per_mm (cfg state) in
   v0 <- float_to_int (F32.mul (ax0 axis) (F32.of_int (ax0 spm))) ;;
   v1 <- float_to_int (F32.mul (ax1 axis) (F32.of_int (ax1 spm))) ;;
   v2 <- float_to_int (F32.mul (ax2 axis) (F32.of_int (ax2 spm))) ;;
   v3 <- float_to_int (F32.mul (ax3 axis) (F32.of_int (ax3 spm))) ;;
   Some (mk_axes v0 v1 v2 v3)).
Proof.
  unfold to_machine_position.
  cbn [for_loop GCODE_NUM_AXES bind aget aset azero ax0 ax1 ax2 ax3].
  destruct (float_to_int (F32.mul (ax0 axis) _)); [|reflexivity].
  destruct (float_to_int (F32.mul (ax1 axis) _)); [|reflexivity].
  destruct (float_to_int (F32.mul (ax2 axis) _)); [|reflexivity].
  destruct (float_to_int (F32.mul (ax3 axis) _)); reflexivity.
Qed.

Lemma float_to_int_in_range (x : spec_float) (v : Z) :
  float_to_int x = Some v -> Int.in_range v.
Proof.
  unfold float_to_int. destruct (float_trunc x) as [t|]; [|discriminate].
  cbn [bind]. destruct (Int.in_rangeb t) eqn:E; [|discriminate].
  intros [= <-]. now apply IntFacts.in_rangeb_spec.
Qed.

Lemma to_machine_position_in_range (state : PrinterState)
      (axis : axes float32) (new : axes Z) :
  to_machine_position state axis = Some new -> aall Int.in_range new.
Proof.
  rewrite to_machine_position_eq. cbn zeta.
  destruct (float_to_int (F32.mul (ax0 axis) _)) eqn:E0; [|discriminate].
  destruct (float_to_int (F32.mul (ax1 axis) _)) eqn:E1; [|discriminate].
  destruct (float_to_int (F32.mul (ax2 axis) _)) eqn:E2; [|discriminate].
  destruct (float_to_int (F32.mul (ax3 axis) _)) eqn:E3; [|discriminate].
  cbn [bind]. intros [= <-]. unfold aall. cbn [ax0 ax1 ax2 ax3].
  repeat split; eapply float_to_int_in_range; eassumption.
Qed.

Lemma position_differences_eq (state : PrinterState) (new : axes Z) :
  position_differences state new =
  Some (amap2 Int.sub new (machine_position state)).
Proof. reflexivity. Qed.

Lemma machine_move_eq (state : PrinterState) (feedrate : float32)
      (axis : axes float32) :
  machine_move state feedrate axis =
  (new <- to_machine_position state axis ;;
   out <- move_machine_steps state feedrate
            (amap2 Int.sub new (machine_position state)) ;;
   Some (set_machine_position state new, out)).
Proof. reflexivity. Qed.

(** ** Feedrates of coordinated and rapid moves *)

Lemma machine_move_keeps_feedrate (state state' : PrinterState)
      (feedrate : float32) (axis : axes float32) (out : list event) :
  machine_move state feedrate axis = Some (state', out) ->
  current_feedrate_mm_per_sec state' = current_feedrate_mm_per_sec state
  /\ prog_speed_factor state' = prog_speed_factor state
  /\ cfg state' = cfg state
  /\ msg_stream state' = msg_stream state.
Proof.
  rewrite machine_move_eq.
  destruct (to_machine_position state axis) as [new|]; [|discriminate].
  cbn [bind]. rewrite move_machine_steps_eq. cbn [bind].
  intros [= <- _]. auto.
Qed.



(** A requested feed of 500 mm/s is above the scenario's maximum of 200 mm/s:
    the move is traced with feedrate 200. *)
Example coordinated_move_clamped :
  machine_G1 (Scenario.initial true true false true) (F32.of_int 500) Scenario.x10 =
  Some (Scenario.at_x10 true true false true (F32.of_int 500),
        [Print (MsgMoveNoZ 100 0 0 (F64.of_int 2) (F32.of_int 200))]).
Proof. vm_compute. reflexivity. Qed.

(** C5.  A rapid move runs at [max_feedrate], unless the given feed is
    positive and [speed_factor * prog_speed_factor * feed] is below
    [max_feedrate], in which case it runs at that value; its feedrate is
    never above [max_feedrate].  That feedrate is the one the move is
    carried out with: the position is committed, and when some step delta
    is nonzero the one command built has the travel speed computed from it
    (or the override rate where that is zero), is handed to the queue
    unless the run is dry, and is traced with that feedrate when tracing is
    on. *)
Theorem rapid_move_feedrate (state : PrinterState) (feed : float32)
        (axis : axes float32) (new : axes Z) :
  let maxf := max_feedrate (cfg state) in
  let given :=
    F32.mul (F32.mul (speed_factor (cfg state)) (prog_speed_factor state)) feed in
  let rapid :=
    if F32.ltb F32.zero feed && F32.ltb given maxf then given else maxf in
  let deltas := amap2 Int.sub new (machine_position state) in
  let speed0 :=
    computed_travel_speed (ax0 (axis_steps_per_mm (cfg state))) rapid
                          (ax0 deltas) (ax1 deltas) in
  let command :=
    {| steps := deltas;
       travel_speed :=
         if F32.eqb speed0 F32.zero
         then F32.of_int ZERO_FEEDRATE_OVERRIDE_HZ else speed0 |} in
  let khz := F64.div (F64.of_float (travel_speed command)) (F64.of_int 1000) in
  let trace :=
    Print (if ax2 deltas =? 0
           then MsgMoveNoZ (ax0 deltas) (ax1 deltas) (ax3 deltas) khz rapid
           else MsgMoveWithZ (ax0 deltas) (ax1 deltas) (ax2 deltas)
                             (ax3 deltas) khz rapid) in
  to_machine_position state axis = Some new ->
  F32.ltb maxf rapid = false
  /\ (rapid = maxf
      \/ (F32.ltb F32.zero feed = true /\ F32.ltb given maxf = true
          /\ rapid = given))
  /\ exists out,
       machine_G0 state feed axis = Some (set_machine_position state new, out)
       /\ out = (if all_zero deltas then []
                 else override_events state rapid deltas
                        ++ queue_events state command
                        ++ debug_events state rapid command)
       /\ (all_zero deltas = false ->
           dry_run (cfg state) = false -> In (Enqueue command) out)
       /\ (forall c, In (Enqueue c) out -> c = command)
       /\ (all_zero deltas = false ->
           debug_print (cfg state) = true -> msg_stream state = true ->
           In trace out).
Proof.
  intros maxf given rapid deltas speed0 command khz trace Hnew.
  split; [|split].
  - unfold rapid. destruct (F32.ltb F32.zero feed); cbn [andb].
    + destruct (F32.ltb given maxf) eqn:H.
      * now apply SFltb_asym.
      * apply SFltb_irrefl.
    + apply SFltb_irrefl.
  - unfold rapid. destruct (F32.ltb F32.zero feed); cbn [andb]; [|now left].
    destruct (F32.ltb given maxf); [right; auto|now left].
  - assert (G : machine_G0 state feed axis =
                Some (set_machine_position state new,
                      if all_zero deltas then []
                      else override_events state rapid deltas
                             ++ queue_events state command
                             ++ debug_events state rapid command)).
    { unfold machine_G0. rewrite machine_move_eq, Hnew. cbn [bind].
      rewrite move_machine_steps_eq. reflexivity. }
    eexists. split; [exact G|]. split; [reflexivity|].
    split; [|split].
    + intros Hz Hd. rewrite Hz. apply in_or_app. right.
      apply in_or_app. left. unfold queue_events. rewrite Hd.
      apply in_or_app. right. now left.
    + intros c Hc. destruct (all_zero deltas); [destruct Hc|].
      unfold override_events, queue_events, debug_events in Hc.
      destruct (F32.eqb _ F32.zero && msg_stream state),
        (dry_run (cfg state)), (synchronous (cfg state)),
        (debug_print (cfg state) && msg_stream state),
        (ax2 (steps command) =? 0);
        cbn [app In] in Hc; intuition (try discriminate; try congruence).
    + intros Hz Hd Hm. rewrite Hz. apply in_or_app. right.
      apply in_or_app. right.
      unfold debug_events, trace, khz, command. cbv zeta.
      cbn [steps travel_speed]. rewrite Hd, Hm. cbn [andb].
      destruct (ax2 deltas =? 0); left; reflexivity.
Qed.

Lemma rapid_move_feedrate_witness :
  machine_G0 (Scenario.initial false true false true) (F32.of_int 50)
             Scenario.x10 =
    Some (Scenario.at_x10 false true false true
                          (F32.div (F32.of_int 200) (F32.of_int 10)),
          [Enqueue {| steps := mk_axes 100 0 0 0;
                      travel_speed := F32.of_int 500 |};
           Print (MsgMoveNoZ 100 0 0 (F64.of_ratio 1 2) (F32.of_int 50))])
  /\ In (Enqueue {| steps := mk_axes 100 0 0 0;
                    travel_speed := F32.of_int 500 |})
        [Enqueue {| steps := mk_axes 100 0 0 0;
                    travel_speed := F32.of_int 500 |};
         Print (MsgMoveNoZ 100 0 0 (F64.of_ratio 1 2) (F32.of_int 50))].
Proof.
  destruct (rapid_move_feedrate
              (Scenario.initial false true false true) (F32.of_int 50)
              Scenario.x10 (mk_axes 100 0 0 0))
    as [_ [_ [out [G [E [Q _]]]]]].
  - vm_compute. reflexivity.
  - assert (O : out =
                [Enqueue {| steps := mk_axes 100 0 0 0;
                            travel_speed := F32.of_int 500 |};
                 Print (MsgMoveNoZ 100 0 0 (F64.of_ratio 1 2)
                                   (F32.of_int 50))])
      by (rewrite E; vm_compute; reflexivity).
    split.
    + rewrite G, O. reflexivity.
    + rewrite <- O.
      refine (eq_ind _ (fun c => In (Enqueue c) out)
                     (Q eq_refl eq_refl) _ _).
      vm_compute. reflexivity.
Defined.

(** With no feed the same rapid move runs at the maximum of 200 mm/s, which
    is 2000 steps per second; with the feed 500 it does too. *)
Example rapid_move_at_maximum :
  machine_G0 (Scenario.initial false true false true) F32.zero Scenario.x10 =
    Some (Scenario.at_x10 false true false true
                          (F32.div (F32.of_int 200) (F32.of_int 10)),
          [Enqueue {| steps := mk_axes 100 0 0 0;
                      travel_speed := F32.of_int 2000 |};
           Print (MsgMoveNoZ 100 0 0 (F64.of_int 2) (F32.of_int 200))])
  /\ machine_G0 (Scenario.initial false true false true) (F32.of_int 500)
                Scenario.x10 =
     machine_G0 (Scenario.initial false true false true) F32.zero Scenario.x10.
Proof. vm_compute. auto. Qed.

(** A rapid move with no feed runs at the maximum of 200 mm/s, one with feed
    50 at 50 mm/s, one with feed 500 at 200 mm/s. *)
Example rapid_move_examples :
  G0_feedrate (Scenario.initial true true false true) F32.zero = F32.of_int 200
  /\ G0_feedrate (Scenario.initial true true false true) (F32.of_int 50) = F32.of_int 50
  /\ G0_feedrate (Scenario.initial true true false true) (F32.of_int 500) = F32.of_int 200.
Proof. vm_compute. auto. Qed.

(** ** The speed factor *)

(** C4.  A negative value [v] requests the factor [1 + v], any other value
    requests itself.  A requested factor below 0.005 is rejected: the state,
    and with it [prog_speed_factor], is unchanged and the rejection is
    written to the message stream; otherwise the requested factor is stored.
    The value -0.999 is rejected and -0.5 stores 0.5. *)
Theorem speed_factor_floor (state : PrinterState) (value : float32) :
  let requested :=
    if F32.ltb value F32.zero then F32.add (F32.of_int 1) value else value in
  let below := F64.ltb (F64.of_float requested) (F64.of_ratio 5 1000) in
  (below = true ->
   machine_set_speed_factor state value =
     (state, speed_factor_rejection state requested))
  /\ (below = false ->
      machine_set_speed_factor state value =
        (set_prog_speed_factor state requested, []))
  /\ machine_set_speed_factor state (F32.of_ratio (-999) 1000) =
       (state,
        speed_factor_rejection state
          (F32.add (F32.of_int 1) (F32.of_ratio (-999) 1000)))
  /\ machine_set_speed_factor state (F32.of_ratio (-5) 10) =
       (set_prog_speed_factor state (F32.of_ratio 5 10), []).
Proof.
  intros requested below.
  assert (G : forall v,
             machine_set_speed_factor state v =
             if below_speed_factor_floor (requested_speed_factor v)
             then (state, speed_factor_rejection state (requested_speed_factor v))
             else (set_prog_speed_factor state (requested_speed_factor v), []))
    by reflexivity.
  split; [|split; [|split]].
  - intros H. rewrite G.
    change (requested_speed_factor value) with requested.
    change (below_speed_factor_floor requested) with below. now rewrite H.
  - intros H. rewrite G.
    change (requested_speed_factor value) with requested.
    change (below_speed_factor_floor requested) with below. now rewrite H.
  - rewrite G.
    replace (requested_speed_factor (F32.of_ratio (-999) 1000))
      with (F32.add (F32.of_int 1) (F32.of_ratio (-999) 1000))
      by (vm_compute; reflexivity).
    replace (below_speed_factor_floor
               (F32.add (F32.of_int 1) (F32.of_ratio (-999) 1000)))
      with true by (vm_compute; reflexivity).
    reflexivity.
  - rewrite G.
    replace (requested_speed_factor (F32.of_ratio (-5) 10))
      with (F32.of_ratio 5 10) by (vm_compute; reflexivity).
    replace (below_speed_factor_floor (F32.of_ratio 5 10))
      with false by (vm_compute; reflexivity).
    reflexivity.
Qed.

Lemma speed_factor_floor_witness :
  prog_speed_factor
    (fst (machine_set_speed_factor (Scenario.initial true true false true)
                                   (F32.of_ratio (-999) 1000))) = F32.of_int 1
  /\ prog_speed_factor
       (fst (machine_set_speed_factor (Scenario.initial true true false true)
                                      (F32.of_ratio (-5) 10))) = F32.of_ratio 1 2.
Proof.
  split.
  - rewrite (proj1 (speed_factor_floor (Scenario.initial true true false true)
                                        (F32.of_ratio (-999) 1000))).
    + reflexivity.
    + vm_compute. reflexivity.
  - rewrite (proj1 (proj2 (speed_factor_floor
                             (Scenario.initial true true false true)
                             (F32.of_ratio (-5) 10)))).
    + vm_compute. reflexivity.
    + vm_compute. reflexivity.
Defined.

(** ** Initialization *)

(** C8.  While an instance exists, [gcode_machine_control_init] returns the
    error result 1 and leaves the instance as it is, whatever the
    configuration: no second state is created. *)
Theorem init_twice_refused (env : Environment) (config : MachineControlConfig)
        (existing : PrinterState) :
  gcode_machine_control_init env config (Some existing) =
  (1, Some existing, [PrintStderr AlreadyInitialized]).
Proof. reflexivity. Qed.

(** In the scenario, the first initialization creates the state and the
    second is refused. *)
Example init_then_init :
  gcode_machine_control_init Scenario.root (Scenario.config true true false) None =
    (0, Some (Scenario.initial true true false false), [])
  /\ gcode_machine_control_init Scenario.root (Scenario.config false false true)
       (Some (Scenario.initial true true false false)) =
     (1, Some (Scenario.initial true true false false),
      [PrintStderr AlreadyInitialized]).
Proof. split; reflexivity. Qed.

(** ** The travel speed of a step command *)

Lemma abs_no_overflow (a : Z) :
  Int.min_signed < a <= Int.max_signed -> Int.abs a = Z.abs a.
Proof.
  intros H. apply IntFacts.wrap_small.
  unfold Int.in_range, Int.min_signed, Int.max_signed in *. lia.
Qed.

Lemma choose_max_abs_no_overflow (a b : Z) :
  Int.min_signed < a <= Int.max_signed ->
  Int.min_signed < b <= Int.max_signed ->
  choose_max_abs a b = Z.max (Z.abs a) (Z.abs b).
Proof.
  intros Ha Hb. unfold choose_max_abs.
  rewrite (abs_no_overflow a Ha), (abs_no_overflow b Hb).
  destruct (Z.gtb_spec (Z.abs a) (Z.abs b)); lia.
Qed.

(** Where the int arithmetic does not overflow, the source computes the
    travel speed of the specification. *)
Lemma computed_travel_speed_claimed (spm : Z) (feedrate : float32) (dx dy : Z) :
  Int.min_signed < dx <= Int.max_signed ->
  Int.min_signed < dy <= Int.max_signed ->
  Int.in_range (Z.max (Z.abs dx) (Z.abs dy) * spm) ->
  computed_travel_speed spm feedrate dx dy =
  claimed_travel_speed spm feedrate dx dy.
Proof.
  intros Hx Hy Hm. unfold computed_travel_speed, claimed_travel_speed.
  rewrite (choose_max_abs_no_overflow dx dy Hx Hy).
  unfold Int.mul. rewrite (IntFacts.wrap_small _ Hm).
  rewrite Z.gtb_ltb. reflexivity.
Qed.

(** C2, as stated, fails where the formula gives zero: at feedrate 0 the
    command for the deltas (100,0,0,0) carries 5 steps per second, while
    [100 * 10 * 0 / sqrt (100^2 + 0^2)] is 0. *)
Lemma travel_speed_zero_counterexample :
  let command :=
    {| steps := mk_axes 100 0 0 0; travel_speed := F32.of_int 5 |} in
  move_machine_steps (Scenario.initial false false false false) F32.zero
                     (mk_axes 100 0 0 0) = Some [Enqueue command]
  /\ claimed_travel_speed 10 F32.zero 100 0 = F32.zero
  /\ travel_speed command <> claimed_travel_speed 10 F32.zero 100 0.
Proof.
  cbv zeta. split; [|split].
  - vm_compute. reflexivity.
  - vm_compute. reflexivity.
  - vm_compute. discriminate.
Qed.

(** C2, amended.  For a move with some nonzero step delta whose int
    arithmetic does not overflow, the command carries the travel speed
    [max(|dx|,|dy|) * steps_per_mm_x * f / sqrt(dx^2 + dy^2)] when
    [max(|dx|,|dy|) > 0] and [steps_per_mm_x * f] otherwise, unless that
    value is exactly zero, in which case it carries 5 steps per second.  In
    the scenario, the move from the origin to X=10 mm at feed 50 builds the
    one command with steps (100,0,0,0) and travel speed 500. *)
Theorem travel_speed_amended (state : PrinterState) (feedrate : float32)
        (s : axes Z) :
  let spm := ax0 (axis_steps_per_mm (cfg state)) in
  all_zero s = false ->
  Int.min_signed < ax0 s <= Int.max_signed ->
  Int.min_signed < ax1 s <= Int.max_signed ->
  Int.in_range (Z.max (Z.abs (ax0 s)) (Z.abs (ax1 s)) * spm) ->
  let v := claimed_travel_speed spm feedrate (ax0 s) (ax1 s) in
  let command :=
    {| steps := s;
       travel_speed := if F32.eqb v F32.zero then F32.of_int 5 else v |} in
  move_machine_steps state feedrate s =
    Some (override_events state feedrate s
            ++ queue_events state command
            ++ debug_events state feedrate command)
  /\ (F32.eqb v F32.zero = false ->
      travel_speed command = v /\ override_events state feedrate s = [])
  /\ (forall dry dbg sync msg,
         let start := Scenario.initial dry dbg sync msg in
         let c500 :=
           {| steps := mk_axes 100 0 0 0; travel_speed := F32.of_int 500 |} in
         machine_G1 start (F32.of_int 50) Scenario.x10 =
           Some (Scenario.at_x10 dry dbg sync msg (F32.of_int 50),
                 queue_events start c500
                   ++ debug_events start (F32.of_int 50) c500)).
Proof.
  intros spm Hz Hx Hy Hm v command.
  assert (E : computed_travel_speed spm feedrate (ax0 s) (ax1 s) = v)
    by now apply computed_travel_speed_claimed.
  split; [|split].
  - rewrite move_machine_steps_eq, Hz. unfold built_command.
    fold spm. rewrite E. reflexivity.
  - intros H. split.
    + unfold command. cbn [travel_speed]. now rewrite H.
    + unfold override_events. fold spm. rewrite E, H. reflexivity.
  - intros [] [] [] []; vm_compute; reflexivity.
Qed.

Lemma travel_speed_amended_witness :
  move_machine_steps (Scenario.initial false false false false)
                     (F32.of_int 50) (mk_axes 100 0 0 0) =
  Some [Enqueue {| steps := mk_axes 100 0 0 0;
                   travel_speed := F32.of_int 500 |}].
Proof.
  refine (eq_trans
            (proj1 (travel_speed_amended
                      (Scenario.initial false false false false)
                      (F32.of_int 50) (mk_axes 100 0 0 0) _ _ _ _)) _).
  - reflexivity.
  - vm_compute. split; [reflexivity | discriminate].
  - vm_compute. split; [reflexivity | discriminate].
  - vm_compute. split; discriminate.
  - vm_compute. reflexivity.
Defined.

(** A diagonal move: the deltas (300,400,0,0) at 50 mm/s give
    [400 * 10 * 50 / 500 = 400] steps per second. *)
Example travel_speed_diagonal :
  computed_travel_speed 10 (F32.of_int 50) 300 400 = F32.of_int 400
  /\ claimed_travel_speed 10 (F32.of_int 50) 300 400 = F32.of_int 400.
Proof. vm_compute. auto. Qed.

(** Where the int product overflows the two differ: 3000000 steps at 1000
    steps per millimeter wrap to a negative product, and with it to a
    negative travel speed, where the formula gives a positive one, close to
    [1000 * 50 = 50000]. *)
Example travel_speed_int_overflow :
  Int.mul 3000000 1000 = -1294967296
  /\ F32.ltb (computed_travel_speed 1000 (F32.of_int 50) 3000000 0) F32.zero = true
  /\ F32.ltb (F32.of_int 49999)
             (claimed_travel_speed 1000 (F32.of_int 50) 3000000 0) = true.
Proof. vm_compute. auto. Qed.

(** A pure Z move: the deltas (0,0,30,0) at 50 mm/s give [10 * 50 = 500]. *)
Example travel_speed_pure_z :
  move_machine_steps (Scenario.initial false false false false)
                     (F32.of_int 50) (mk_axes 0 0 30 0) =
  Some [Enqueue {| steps := mk_axes 0 0 30 0; travel_speed := F32.of_int 500 |}].
Proof. vm_compute. reflexivity. Qed.

(** C6.  When some step delta is nonzero and the computed travel speed is
    exactly zero, the command carries the override rate of 5 steps per
    second, which is not zero; it is the command handed to the queue unless
    the run is dry, and the substitution is written to the message stream
    when there is one. *)
Theorem zero_speed_override (state : PrinterState) (feedrate : float32)
        (s : axes Z) :
  let spm := ax0 (axis_steps_per_mm (cfg state)) in
  all_zero s = false ->
  F32.eqb (computed_travel_speed spm feedrate (ax0 s) (ax1 s)) F32.zero = true ->
  let command :=
    {| steps := s; travel_speed := F32.of_int ZERO_FEEDRATE_OVERRIDE_HZ |} in
  let notice :=
    Print (MsgIgnoringSpeedZero
             (F32.div (F32.mul (F32.of_int 1)
                               (F32.of_int ZERO_FEEDRATE_OVERRIDE_HZ))
                      (F32.of_int spm))) in
  exists out,
    move_machine_steps state feedrate s = Some out
    /\ out = (if msg_stream state then [notice] else [])
               ++ queue_events state command
               ++ debug_events state feedrate command
    /\ (dry_run (cfg state) = false -> In (Enqueue command) out)
    /\ (forall c, In (Enqueue c) out -> c = command)
    /\ (msg_stream state = true -> In notice out)
    /\ travel_speed command = F32.of_int 5
    /\ F32.eqb (travel_speed command) F32.zero = false.
Proof.
  intros spm Hz H0 command notice.
  assert (B : built_command state feedrate s = command).
  { unfold built_command, command. fold spm. now rewrite H0. }
  assert (O : override_events state feedrate s =
              if msg_stream state then [notice] else []).
  { unfold override_events. fold spm. rewrite H0. reflexivity. }
  eexists. split; [|split; [reflexivity|]].
  - rewrite move_machine_steps_eq, Hz, B, O. reflexivity.
  - split; [|split; [|split; [|split]]].
    + intros Hd. apply in_or_app. right. apply in_or_app. left.
      unfold queue_events. rewrite Hd. apply in_or_app. right. now left.
    + intros c Hc.
      apply in_app_or in Hc. destruct Hc as [Hc|Hc].
      { destruct (msg_stream state); [|contradiction].
        destruct Hc as [Hc|[]]. discriminate. }
      apply in_app_or in Hc. destruct Hc as [Hc|Hc].
      { unfold queue_events in Hc.
        destruct (dry_run (cfg state)); [contradiction|].
        apply in_app_or in Hc. destruct Hc as [Hc|Hc].
        - destruct (synchronous (cfg state)); [|contradiction].
          destruct Hc as [Hc|[]]. discriminate.
        - destruct Hc as [Hc|[]]. congruence. }
      unfold debug_events in Hc.
      destruct (debug_print (cfg state) && msg_stream state); [|contradiction].
      destruct (ax2 (steps command) =? 0);
        destruct Hc as [Hc|[]]; discriminate.
    + intros Hm. rewrite Hm. now left.
    + reflexivity.
    + vm_compute. reflexivity.
Qed.

Lemma zero_speed_override_witness :
  exists out,
    move_machine_steps (Scenario.initial false false false true) F32.zero
                       (mk_axes 100 0 0 0) = Some out
    /\ In (Enqueue {| steps := mk_axes 100 0 0 0;
                      travel_speed := F32.of_int 5 |}) out
    /\ In (Print (MsgIgnoringSpeedZero (F32.of_ratio 1 2))) out.
Proof.
  destruct (zero_speed_override (Scenario.initial false false false true)
                                F32.zero (mk_axes 100 0 0 0))
    as [out [H [_ [Hq [_ [Hn _]]]]]].
  - reflexivity.
  - vm_compute. reflexivity.
  - exists out. split; [exact H|]. split.
    + apply Hq. reflexivity.
    + apply Hn. reflexivity.
Defined.

(** A feedrate of zero on a pure Z move, and a feedrate that the program
    speed factor rounds to zero, both end in the override rate. *)
Example zero_feedrate_examples :
  move_machine_steps (Scenario.initial false false false false) F32.zero
                     (mk_axes 0 0 3 0) =
    Some [Enqueue {| steps := mk_axes 0 0 3 0; travel_speed := F32.of_int 5 |}]
  /\ machine_G1 (set_prog_speed_factor (Scenario.initial false false false false)
                                       (F32.of_ratio 1 2))
                (S754_finite false 1 (-149)) Scenario.x10 =
     Some (set_prog_speed_factor
             (Scenario.at_x10 false false false false (S754_finite false 1 (-149)))
             (F32.of_ratio 1 2),
           [Enqueue {| steps := mk_axes 100 0 0 0;
                       travel_speed := F32.of_int 5 |}]).
Proof. vm_compute. auto. Qed.

(** ** Homing *)

Lemma home_loop_eq (axes_bitmap : Z) (p : axes Z) :
  home_loop axes_bitmap p =
  if bitmap_has axes_bitmap GCODE_NUM_AXES then None
  else Some (home_differences axes_bitmap p, home_position axes_bitmap p).
Proof.
  destruct p as [x y z e].
  unfold home_loop, home_differences, home_position,
    GCODE_NUM_AXES, AXIS_X, AXIS_Y, AXIS_Z, AXIS_E.
  cbn [for_loop bind aget aset azero ax0 ax1 ax2 ax3 Nat.eqb negb].
  destruct (bitmap_has axes_bitmap 0), (bitmap_has axes_bitmap 1),
    (bitmap_has axes_bitmap 2), (bitmap_has axes_bitmap 3),
    (bitmap_has axes_bitmap 4); reflexivity.
Qed.

Lemma machine_home_eq (state : PrinterState) (axes_bitmap : Z) :
  machine_home state axes_bitmap =
  if bitmap_has axes_bitmap GCODE_NUM_AXES then None
  else
    let d := home_differences axes_bitmap (machine_position state) in
    let state1 :=
      set_machine_position state
        (home_position axes_bitmap (machine_position state)) in
    out <- move_machine_steps state1 (max_feedrate (cfg state)) d ;;
    Some (state1,
          (if msg_stream state
           then [Print (MsgHomingRequested axes_bitmap (ax0 d) (ax1 d) (ax2 d))]
           else []) ++ out).
Proof.
  unfold machine_home. rewrite home_loop_eq.
  destruct (bitmap_has axes_bitmap GCODE_NUM_AXES); reflexivity.
Qed.

Lemma home_differences_idem (axes_bitmap : Z) (p : axes Z) :
  home_differences axes_bitmap (home_position axes_bitmap p) = azero.
Proof.
  unfold home_differences, home_position, azero. cbn [ax0 ax1 ax2 ax3].
  destruct (bitmap_has axes_bitmap AXIS_X), (bitmap_has axes_bitmap AXIS_Y),
    (bitmap_has axes_bitmap AXIS_Z); reflexivity.
Qed.

Lemma home_position_idem (axes_bitmap : Z) (p : axes Z) :
  home_position axes_bitmap (home_position axes_bitmap p) =
  home_position axes_bitmap p.
Proof.
  unfold home_position. cbn [ax0 ax1 ax2 ax3].
  destruct (bitmap_has axes_bitmap AXIS_X), (bitmap_has axes_bitmap AXIS_Y),
    (bitmap_has axes_bitmap AXIS_Z), (bitmap_has axes_bitmap AXIS_E);
    reflexivity.
Qed.

(** A bitmap over the four axes has no bit beyond them. *)
Lemma axes_bitmap_in_bounds (axes_bitmap : Z) :
  0 <= axes_bitmap < 16 -> bitmap_has axes_bitmap GCODE_NUM_AXES = false.
Proof.
  intros H.
  assert (E : exists n, (n < 16)%nat /\ axes_bitmap = Z.of_nat n)
    by (exists (Z.to_nat axes_bitmap); lia).
  destruct E as [n [Hn ->]].
  do 16 (destruct n as [|n]; [reflexivity|]). lia.
Qed.

(** [machine_home] is defined exactly for the bitmaps without bit
    GCODE_NUM_AXES. *)
Lemma machine_home_defined (state : PrinterState) (axes_bitmap : Z) :
  bitmap_has axes_bitmap GCODE_NUM_AXES = false <->
  exists state1 out, machine_home state axes_bitmap = Some (state1, out).
Proof.
  rewrite machine_home_eq. split.
  - intros ->. cbv zeta. rewrite move_machine_steps_eq. cbn [bind]. eauto.
  - destruct (bitmap_has axes_bitmap GCODE_NUM_AXES); [|reflexivity].
    intros [? [? ?]]. discriminate.
Qed.

(** C7.  Homing twice with the same bitmap: after the first call the stored
    position of every homed axis is zero, so the second call computes the
    zero delta on every axis, hands nothing to the queue and leaves the
    state as the first call left it.  The first call is defined for every
    bitmap without a bit beyond the axes. *)
Theorem home_twice (state : PrinterState) (axes_bitmap : Z) :
  (bitmap_has axes_bitmap GCODE_NUM_AXES = false ->
   exists state1 out1, machine_home state axes_bitmap = Some (state1, out1))
  /\ (forall state1 out1,
         machine_home state axes_bitmap = Some (state1, out1) ->
         (forall i, (i < GCODE_NUM_AXES)%nat ->
                    bitmap_has axes_bitmap i = true ->
                    aget i (machine_position state1) = Some 0)
         /\ home_loop axes_bitmap (machine_position state1) =
              Some (azero, machine_position state1)
         /\ machine_home state1 axes_bitmap =
              Some (state1,
                    if msg_stream state1
                    then [Print (MsgHomingRequested axes_bitmap 0 0 0)]
                    else [])).
Proof.
  split; [apply machine_home_defined|].
  intros state1 out1. rewrite machine_home_eq.
  destruct (bitmap_has axes_bitmap GCODE_NUM_AXES) eqn:Hb; [discriminate|].
  cbv zeta. rewrite move_machine_steps_eq. cbn [bind]. intros [= <- _].
  split; [|split].
  - intros i Hi Hbit. cbn [set_machine_position machine_position].
    unfold home_position, GCODE_NUM_AXES, AXIS_X, AXIS_Y, AXIS_Z, AXIS_E in *.
    do 4 (destruct i as [|i]; [cbn [aget ax0 ax1 ax2 ax3]; now rewrite Hbit|]).
    lia.
  - rewrite home_loop_eq, Hb. cbn [set_machine_position machine_position].
    now rewrite home_differences_idem, home_position_idem.
  - rewrite machine_home_eq, Hb. cbv zeta.
    cbn [set_machine_position machine_position cfg msg_stream
         current_feedrate_mm_per_sec prog_speed_factor].
    rewrite home_differences_idem, home_position_idem.
    rewrite move_machine_steps_eq. cbn [bind].
    replace (all_zero azero) with true by reflexivity.
    rewrite app_nil_r. reflexivity.
Qed.

Lemma home_twice_witness :
  machine_home (Scenario.at_x10 false false false true (F32.of_int 50)) 3 =
    Some (Scenario.state false false false true (F32.of_int 50) azero,
          [Print (MsgHomingRequested 3 (-100) 0 0);
           Enqueue {| steps := mk_axes (-100) 0 0 0;
                      travel_speed := F32.of_int 2000 |}])
  /\ machine_home (Scenario.state false false false true (F32.of_int 50) azero) 3 =
       Some (Scenario.state false false false true (F32.of_int 50) azero,
             [Print (MsgHomingRequested 3 0 0 0)]).
Proof.
  assert (H : machine_home
                (Scenario.at_x10 false false false true (F32.of_int 50)) 3 =
              Some (Scenario.state false false false true (F32.of_int 50) azero,
                    [Print (MsgHomingRequested 3 (-100) 0 0);
                     Enqueue {| steps := mk_axes (-100) 0 0 0;
                                travel_speed := F32.of_int 2000 |}])).
  { destruct (proj1 (home_twice
                       (Scenario.at_x10 false false false true (F32.of_int 50))
                       3) eq_refl) as [state1 [out1 H1]].
    rewrite H1. revert H1. vm_compute. intros [= <- <-]. reflexivity. }
  split; [exact H|].
  exact (proj2 (proj2 (proj2 (home_twice _ 3) _ _ H))).
Defined.

(** The commands [move_machine_steps] hands to the queue. *)
Lemma move_machine_steps_enqueued (state : PrinterState) (feedrate : float32)
      (s : axes Z) (out : list event) (c : bg_movement) :
  move_machine_steps state feedrate s = Some out ->
  In (Enqueue c) out ->
  c = built_command state feedrate s /\ all_zero s = false
  /\ dry_run (cfg state) = false.
Proof.
  rewrite move_machine_steps_eq. intros [= <-].
  destruct (all_zero s); [contradiction|].
  unfold override_events, queue_events, debug_events.
  destruct (F32.eqb _ F32.zero && msg_stream state),
    (dry_run (cfg state)), (synchronous (cfg state)),
    (debug_print (cfg state) && msg_stream state),
    (ax2 (steps (built_command state feedrate s)) =? 0);
    cbn [app In]; intuition (try discriminate; try congruence).
Qed.

Lemma move_machine_steps_submitted (state : PrinterState) (feedrate : float32)
      (s : axes Z) (out : list event) :
  move_machine_steps state feedrate s = Some out ->
  submitted_steps out = if all_zero s || dry_run (cfg state) then azero else s.
Proof.
  rewrite move_machine_steps_eq. intros [= <-].
  destruct (all_zero s); [reflexivity|].
  unfold override_events, queue_events, debug_events, built_command.
  destruct s as [a b c d]. cbv zeta.
  cbn [steps ax0 ax1 ax2 ax3].
  destruct (F32.eqb _ F32.zero && msg_stream state),
    (dry_run (cfg state)), (synchronous (cfg state)),
    (debug_print (cfg state) && msg_stream state), (c =? 0);
    cbn [app submitted_steps orb steps]; unfold amap2, azero;
    cbn [ax0 ax1 ax2 ax3]; rewrite ?Z.add_0_r; reflexivity.
Qed.

(** C9, at the failing input.  The loop of [machine_home] runs to
    [i = GCODE_NUM_AXES] inclusive: with bit 4 of the bitmap set, as in 0x10,
    it indexes [machine_position] and [machine_pos_differences] at 4, one
    past their end.  The handler stays inside the arrays exactly for the
    bitmaps without that bit. *)
Theorem home_out_of_bounds (state : PrinterState) :
  bitmap_has 16 GCODE_NUM_AXES = true
  /\ aget GCODE_NUM_AXES (machine_position state) = None
  /\ aset GCODE_NUM_AXES 0 (machine_position state) = None
  /\ home_loop 16 (machine_position state) = None
  /\ machine_home state 16 = None
  /\ (forall axes_bitmap,
         machine_home state axes_bitmap = None <->
         bitmap_has axes_bitmap GCODE_NUM_AXES = true).
Proof.
  repeat (split; [reflexivity|]).
  intros axes_bitmap. rewrite machine_home_eq.
  destruct (bitmap_has axes_bitmap GCODE_NUM_AXES).
  - tauto.
  - cbv zeta. rewrite move_machine_steps_eq. cbn [bind].
    split; discriminate.
Qed.

(** C10.  Homing with the E bit set leaves [machine_position[E]] at 0 while
    every command it hands to the queue has the E delta 0: the E position is
    reset without motion, so an E position that was not zero no longer is
    the old position plus the submitted E steps.  The call is defined for
    every bitmap without a bit beyond the axes. *)
Theorem home_resets_extruder (state : PrinterState) (axes_bitmap : Z) :
  bitmap_has axes_bitmap AXIS_E = true ->
  (bitmap_has axes_bitmap GCODE_NUM_AXES = false ->
   exists state1 out, machine_home state axes_bitmap = Some (state1, out))
  /\ (forall state1 out,
         machine_home state axes_bitmap = Some (state1, out) ->
         aget AXIS_E (machine_position state1) = Some 0
         /\ (forall command,
                In (Enqueue command) out ->
                aget AXIS_E (steps command) = Some 0)
         /\ ax3 (submitted_steps out) = 0
         /\ (ax3 (machine_position state) <> 0 ->
             ax3 (machine_position state1) <>
             ax3 (machine_position state) + ax3 (submitted_steps out))).
Proof.
  intros He. split; [apply machine_home_defined|].
  intros state1 out. rewrite machine_home_eq.
  destruct (bitmap_has axes_bitmap GCODE_NUM_AXES); [discriminate|].
  cbv zeta.
  destruct (move_machine_steps _ _ _) as [out'|] eqn:Hm; [|discriminate].
  cbn [bind]. intros [= <- <-].
  assert (P : ax3 (home_position axes_bitmap (machine_position state)) = 0).
  { unfold home_position. cbn [ax3]. now rewrite He. }
  assert (S : forall m,
             ax3 (submitted_steps
                    ((if msg_stream state then [Print m] else []) ++ out')) = 0).
  { intros m.
    assert (S' : ax3 (submitted_steps out') = 0).
    { rewrite (move_machine_steps_submitted _ _ _ _ Hm).
      destruct (all_zero _ || dry_run _); reflexivity. }
    destruct (msg_stream state); exact S'. }
  split; [|split; [|split]].
  - unfold AXIS_E, aget. now rewrite <- P.
  - intros command Hc. apply in_app_or in Hc. destruct Hc as [Hc|Hc].
    + destruct (msg_stream state); [|contradiction].
      destruct Hc as [Hc|[]]. discriminate.
    + destruct (move_machine_steps_enqueued _ _ _ _ _ Hm Hc) as [-> _].
      reflexivity.
  - apply S.
  - intros Hn. rewrite S.
    change (machine_position (set_machine_position state ?p)) with p.
    rewrite P. lia.
Qed.

Lemma home_resets_extruder_witness :
  exists state1 out,
    machine_home (Scenario.state false false false false (F32.of_int 50)
                                 (mk_axes 100 0 0 70)) 9 = Some (state1, out)
    /\ aget AXIS_E (machine_position state1) = Some 0
    /\ ax3 (submitted_steps out) = 0.
Proof.
  destruct (home_resets_extruder
              (Scenario.state false false false false (F32.of_int 50)
                              (mk_axes 100 0 0 70)) 9 eq_refl)
    as [D R].
  destruct (D eq_refl) as [state1 [out H]].
  exists state1, out. split; [exact H|].
  destruct (R state1 out H) as [R1 [_ [R3 _]]]. split; assumption.
Defined.

(** With the extruder at 70 steps, homing X and E moves X back by 100 steps
    and forgets the 70 steps of E without moving it. *)
Example home_extruder_example :
  machine_home (Scenario.state false false false false (F32.of_int 50)
                               (mk_axes 100 0 0 70)) 9 =
  Some (Scenario.state false false false false (F32.of_int 50) azero,
        [Enqueue {| steps := mk_axes (-100) 0 0 0;
                    travel_speed := F32.of_int 2000 |}]).
Proof. vm_compute. reflexivity. Qed.

(** ** Sequences of moves *)

Lemma to_machine_position_cfg (s1 s2 : PrinterState) (axis : axes float32) :
  cfg s1 = cfg s2 -> to_machine_position s1 axis = to_machine_position s2 axis.
Proof. intros E. rewrite !to_machine_position_eq, E. reflexivity. Qed.

Lemma machine_move_spec (state state1 : PrinterState) (feedrate : float32)
      (axis : axes float32) (out : list event) :
  machine_move state feedrate axis = Some (state1, out) ->
  to_machine_position state axis = Some (machine_position state1)
  /\ state1 = set_machine_position state (machine_position state1)
  /\ move_machine_steps state feedrate
       (amap2 Int.sub (machine_position state1) (machine_position state)) =
     Some out.
Proof.
  rewrite machine_move_eq.
  destruct (to_machine_position state axis) as [new|]; [|discriminate].
  cbn [bind].
  destruct (move_machine_steps state feedrate _) as [o|] eqn:E; [|discriminate].
  cbn [bind]. intros [= <- <-]. auto.
Qed.

(** What a move callback does, whichever of the two it is. *)
Lemma dispatch_move (state state1 : PrinterState) (c : callback)
      (out : list event) :
  is_move c = true ->
  dispatch state c = Some (state1, out) ->
  exists (start : PrinterState) (feedrate : float32) (axis : axes float32),
    cfg start = cfg state
    /\ machine_position start = machine_position state
    /\ machine_move start feedrate axis = Some (state1, out)
    /\ match c with
       | coordinated_move _ a | rapid_move _ a => a = axis
       | _ => False
       end.
Proof.
  destruct c as [feed axis|feed axis|bm|v]; try discriminate; intros _ H.
  - cbn [dispatch] in H. unfold machine_G1 in H.
    eexists _, _, axis. split; [|split; [|split; [exact H|reflexivity]]];
      destruct (F32.ltb F32.zero feed); reflexivity.
  - exists state, (G0_feedrate state feed), axis. auto.
Qed.

Lemma move_differences_eq (state start : PrinterState) (axis : axes float32)
      (new : axes Z) :
  cfg start = cfg state ->
  machine_position start = machine_position state ->
  to_machine_position start axis = Some new ->
  move_differences state axis =
  Some (amap2 Int.sub new (machine_position state)).
Proof.
  intros Ec Ep H. unfold move_differences.
  rewrite <- (to_machine_position_cfg start state axis Ec), H. reflexivity.
Qed.

Lemma congruent_sub (n o : Z) : congruent (Int.sub n o) (n - o).
Proof. apply IntFacts.wrap_multiple. Qed.

Lemma congruent_chain (a b x y z : Z) :
  congruent a (x - y) -> congruent b (z - x) -> congruent (a + b) (z - y).
Proof. intros [k ->] [l ->]. exists (k + l). lia. Qed.

Lemma congruent_zero (x y : Z) :
  Int.in_range x -> Int.in_range y -> congruent 0 (x - y) -> x = y.
Proof.
  intros Hx Hy [k E]. apply (IntFacts.in_range_congruent x y (- k)); auto. lia.
Qed.

(** Along a stream of moves, the sum of the step deltas agrees modulo 2^32
    with the change of [machine_position], which stays in the range of int. *)
Lemma run_moves_displacement (cs : list callback) :
  forall (state state1 : PrinterState) (out : list event),
    forallb is_move cs = true ->
    run state cs = Some (state1, out) ->
    exists d,
      net_displacement state cs = Some d
      /\ aall2 congruent d
           (amap2 Z.sub (machine_position state1) (machine_position state))
      /\ (aall Int.in_range (machine_position state) ->
          aall Int.in_range (machine_position state1)).
Proof.
  induction cs as [|c cs IH]; intros state state1 out Hmv Hrun.
  - cbn in Hrun. injection Hrun as <- <-. exists azero.
    split; [reflexivity|]. split; [|auto].
    unfold aall2, amap2, azero. cbn [ax0 ax1 ax2 ax3].
    repeat split; exists 0; lia.
  - cbn [forallb] in Hmv. apply andb_true_iff in Hmv. destruct Hmv as [Hc Hcs].
    cbn [run] in Hrun.
    destruct (dispatch state c) as [[sa oa]|] eqn:Hd; [|discriminate].
    cbn [bind] in Hrun.
    destruct (run sa cs) as [[sb ob]|] eqn:Hr; [|discriminate].
    cbn [bind] in Hrun. injection Hrun as <- <-.
    destruct (dispatch_move _ _ _ _ Hc Hd)
      as [start [feedrate [axis [Ec [Ep [Hm Hax]]]]]].
    destruct (machine_move_spec _ _ _ _ _ Hm) as [Hnew _].
    pose proof (to_machine_position_in_range _ _ _ Hnew) as Hrange.
    pose proof (move_differences_eq state start axis _ Ec Ep Hnew) as Hdiff.
    destruct (IH sa sb ob Hcs Hr) as [d [Hnet [Hcong Hkeep]]].
    exists (amap2 Z.add (amap2 Int.sub (machine_position sa)
                                       (machine_position state)) d).
    split; [|split].
    + cbn [net_displacement]. rewrite Hd.
      destruct c as [f a|f a|bm|v]; try contradiction; subst a;
        rewrite Hdiff; cbn [bind]; rewrite Hnet; reflexivity.
    + destruct Hcong as [H0 [H1 [H2 H3]]].
      unfold aall2, amap2 in *. cbn [ax0 ax1 ax2 ax3] in *.
      repeat split; (eapply congruent_chain; [apply congruent_sub|eassumption]).
    + intros _. apply Hkeep. exact Hrange.
Qed.

Lemma dispatch_no_zero_command (state state1 : PrinterState) (c : callback)
      (out : list event) (command : bg_movement) :
  dispatch state c = Some (state1, out) ->
  In (Enqueue command) out -> all_zero (steps command) = false.
Proof.
  assert (M : forall st f ax st1 o,
             machine_move st f ax = Some (st1, o) ->
             In (Enqueue command) o -> all_zero (steps command) = false).
  { intros st f ax st1 o H Hin.
    destruct (machine_move_spec _ _ _ _ _ H) as [_ [_ Hs]].
    destruct (move_machine_steps_enqueued _ _ _ _ _ Hs Hin) as [-> [Hz _]].
    exact Hz. }
  destruct c as [feed axis|feed axis|bm|v]; cbn [dispatch].
  - apply M.
  - apply M.
  - rewrite machine_home_eq.
    destruct (bitmap_has bm GCODE_NUM_AXES); [discriminate|]. cbv zeta.
    destruct (move_machine_steps _ _ _) as [o|] eqn:Hs; [|discriminate].
    cbn [bind]. intros [= _ <-] Hin.
    apply in_app_or in Hin. destruct Hin as [Hin|Hin].
    + destruct (msg_stream state); [|contradiction].
      destruct Hin as [Hin|[]]. discriminate.
    + destruct (move_machine_steps_enqueued _ _ _ _ _ Hs Hin) as [-> [Hz _]].
      exact Hz.
  - unfold machine_set_speed_factor.
    destruct (below_speed_factor_floor _); intros [= _ <-]; [|contradiction].
    destruct (msg_stream state); [|contradiction].
    intros [Hin|[]]. discriminate.
Qed.

(** No stream of callbacks hands a command with all-zero deltas to the
    queue. *)
Lemma run_no_zero_command (cs : list callback) :
  forall (state state1 : PrinterState) (out : list event)
         (command : bg_movement),
    run state cs = Some (state1, out) ->
    In (Enqueue command) out -> steps command <> azero.
Proof.
  induction cs as [|c cs IH]; intros state state1 out command Hrun Hin.
  - cbn in Hrun. injection Hrun as <- <-. contradiction.
  - cbn [run] in Hrun.
    destruct (dispatch state c) as [[sa oa]|] eqn:Hd; [|discriminate].
    cbn [bind] in Hrun.
    destruct (run sa cs) as [[sb ob]|] eqn:Hr; [|discriminate].
    cbn [bind] in Hrun. injection Hrun as <- <-.
    apply in_app_or in Hin. destruct Hin as [Hin|Hin].
    + pose proof (dispatch_no_zero_command _ _ _ _ _ Hd Hin) as Hz.
      intros E. apply all_zero_spec in E. congruence.
    + exact (IH _ _ _ _ Hr Hin).
Qed.

(** C3.  Along a stream of coordinated and rapid moves that starts from a
    position of ints: if the step deltas of the moves sum to zero on every
    axis, [machine_position] ends where it started; no command handed to the
    queue has all-zero deltas; a move whose deltas are all zero hands over
    nothing and writes nothing, and every move commits the new absolute
    position, also then. *)
Theorem moves_zero_displacement (state state1 : PrinterState)
        (cs : list callback) (out : list event) :
  forallb is_move cs = true ->
  aall Int.in_range (machine_position state) ->
  run state cs = Some (state1, out) ->
  (net_displacement state cs = Some azero ->
   machine_position state1 = machine_position state)
  /\ (forall command, In (Enqueue command) out -> steps command <> azero)
  /\ (forall st feedrate axis,
         move_differences st axis = Some azero ->
         exists new,
           to_machine_position st axis = Some new
           /\ machine_move st feedrate axis =
                Some (set_machine_position st new, []))
  /\ (forall st feedrate axis after o,
         machine_move st feedrate axis = Some (after, o) ->
         to_machine_position st axis = Some (machine_position after)).
Proof.
  intros Hmv Hrange Hrun. split; [|split; [|split]].
  - intros Hnet.
    destruct (run_moves_displacement cs _ _ _ Hmv Hrun) as [d [Hd [Hc Hk]]].
    rewrite Hnet in Hd. injection Hd as <-.
    specialize (Hk Hrange).
    destruct (machine_position state1) as [x1 y1 z1 e1].
    destruct (machine_position state) as [x y z e].
    unfold aall2, aall, amap2, azero in *. cbn [ax0 ax1 ax2 ax3] in *.
    destruct Hc as [C0 [C1 [C2 C3]]].
    destruct Hk as [K0 [K1 [K2 K3]]].
    destruct Hrange as [R0 [R1 [R2 R3]]].
    f_equal; apply congruent_zero; assumption.
  - intros command. exact (run_no_zero_command cs _ _ _ _ Hrun).
  - intros st feedrate axis Hz. unfold move_differences in Hz.
    destruct (to_machine_position st axis) as [new|] eqn:Hnew;
      [|discriminate].
    cbn [bind] in Hz. rewrite position_differences_eq in Hz.
    assert (Hz' : amap2 Int.sub new (machine_position st) = azero)
      by congruence.
    exists new. split; [reflexivity|].
    rewrite machine_move_eq, Hnew. cbn [bind].
    rewrite move_machine_steps_eq, Hz'. reflexivity.
  - intros st feedrate axis after o H.
    now destruct (machine_move_spec _ _ _ _ _ H) as [-> _].
Qed.

Lemma moves_zero_displacement_witness :
  let there := coordinated_move (F32.of_int 50) Scenario.x10 in
  let back := rapid_move F32.zero Scenario.origin in
  let start := Scenario.initial false false false false in
  let stop := Scenario.state false false false false (F32.of_int 50) azero in
  run start [there; back] =
    Some (stop,
          [Enqueue {| steps := mk_axes 100 0 0 0;
                      travel_speed := F32.of_int 500 |};
           Enqueue {| steps := mk_axes (-100) 0 0 0;
                      travel_speed := F32.of_int 2000 |}])
  /\ machine_position stop = machine_position start.
Proof.
  cbv zeta.
  assert (H : run (Scenario.initial false false false false)
                  [coordinated_move (F32.of_int 50) Scenario.x10;
                   rapid_move F32.zero Scenario.origin] =
              Some (Scenario.state false false false false (F32.of_int 50) azero,
                    [Enqueue {| steps := mk_axes 100 0 0 0;
                                travel_speed := F32.of_int 500 |};
                     Enqueue {| steps := mk_axes (-100) 0 0 0;
                                travel_speed := F32.of_int 2000 |}]))
    by (vm_compute; reflexivity).
  split; [exact H|].
  refine (proj1 (moves_zero_displacement _ _ _ _ _ _ H) _).
  - reflexivity.
  - vm_compute. repeat split; discriminate.
  - vm_compute. reflexivity.
Defined.

(** A move to the position the machine is at: nothing is handed over, nothing
    is written, and the position is committed. *)
Example move_in_place :
  machine_G1 (Scenario.at_x10 false true false true (F32.of_int 50))
             (F32.of_int 50) Scenario.x10 =
  Some (Scenario.at_x10 false true false true (F32.of_int 50), []).
Proof. vm_compute. reflexivity. Qed.

(** * Further properties: all callbacks and the life cycle *)

(** ** What a handler may change and what it may do *)

Lemma dispatch_keeps_config (state state1 : PrinterState) (c : callback)
      (out : list event) :
  dispatch state c = Some (state1, out) ->
  cfg state1 = cfg state /\ msg_stream state1 = msg_stream state.
Proof.
  destruct c as [feed axis|feed axis|bm|v]; cbn [dispatch].
  - unfold machine_G1. intros H.
    apply machine_move_keeps_feedrate in H. destruct H as [_ [_ [-> ->]]].
    destruct (F32.ltb F32.zero feed); auto.
  - unfold machine_G0. intros H.
    apply machine_move_keeps_feedrate in H. tauto.
  - rewrite machine_home_eq.
    destruct (bitmap_has bm GCODE_NUM_AXES); [discriminate|]. cbv zeta.
    rewrite move_machine_steps_eq. cbn [bind]. intros [= <- _]. auto.
  - unfold machine_set_speed_factor.
    destruct (below_speed_factor_floor _); intros [= <- _]; auto.
Qed.

Lemma handle_keeps_config (state state1 : PrinterState) (c : parser_callback)
      (out : list action) :
  handle state c = Some (state1, out) ->
  cfg state1 = cfg state /\ msg_stream state1 = msg_stream state.
Proof.
  destruct c as [c|v|v|v| | |l v r]; cbn [handle].
  - destruct (dispatch state c) as [[s o]|] eqn:H; [|discriminate].
    cbn [bind]. intros [= <- _]. eapply dispatch_keeps_config; eauto.
  - destruct (machine_dwell state v); [|discriminate].
    cbn [bind]. intros [= <- _]. auto.
  - intros [= <- _]. auto.
  - intros [= <- _]. auto.
  - intros [= <- _]. auto.
  - intros [= <- _]. auto.
  - destruct (special_commands state l v r); [|discriminate].
    cbn [bind]. intros [= <- _]. auto.
Qed.

(** Destructing one step of [handle_all]. *)
Lemma handle_all_cons (state state2 : PrinterState) (c : parser_callback)
      (cs : list parser_callback) (out : list action) :
  handle_all state (c :: cs) = Some (state2, out) ->
  exists state1 out1 out2,
    handle state c = Some (state1, out1)
    /\ handle_all state1 cs = Some (state2, out2)
    /\ out = out1 ++ out2.
Proof.
  cbn [handle_all].
  destruct (handle state c) as [[s1 o1]|]; [|discriminate]. cbn [bind].
  destruct (handle_all s1 cs) as [[s2 o2]|] eqn:H2; [|discriminate].
  cbn [bind]. intros [= <- <-]. exists s1, o1, o2. auto.
Qed.

Lemma handle_all_keeps_config (cs : list parser_callback) :
  forall (state state1 : PrinterState) (out : list action),
    handle_all state cs = Some (state1, out) ->
    cfg state1 = cfg state /\ msg_stream state1 = msg_stream state.
Proof.
  induction cs as [|c cs IH]; intros state state1 out H.
  - cbn in H. injection H as <- _. auto.
  - apply handle_all_cons in H.
    destruct H as [s1 [o1 [o2 [H1 [H2 _]]]]].
    destruct (handle_keeps_config _ _ _ _ H1) as [<- <-].
    exact (IH _ _ _ H2).
Qed.

(** X1.  No stream of callbacks changes the configuration or the message
    stream of the state. *)
Theorem handlers_keep_config (state state1 : PrinterState)
        (cs : list parser_callback) (out : list action) :
  handle_all state cs = Some (state1, out) ->
  cfg state1 = cfg state /\ msg_stream state1 = msg_stream state.
Proof. apply handle_all_keeps_config. Qed.

Lemma handlers_keep_config_witness :
  exists state1 out,
    handle_all (Session.live true) Session.square = Some (state1, out)
    /\ cfg state1 = cfg (Session.live true)
    /\ msg_stream state1 = true.
Proof.
  destruct (handle_all (Session.live true) Session.square)
    as [[state1 out]|] eqn:H; [|vm_compute in H; discriminate].
  exists state1, out. split; [reflexivity|].
  exact (handlers_keep_config _ _ _ _ H).
Defined.

Lemma allowed_ext (s1 s2 : PrinterState) (a : action) :
  cfg s1 = cfg s2 -> msg_stream s1 = msg_stream s2 ->
  allowed s1 a -> allowed s2 a.
Proof.
  intros Ec Em. destruct a as [[| |m| |]|r|u| | |m]; cbn [allowed];
    rewrite ?Ec, ?Em; auto.
Qed.

(** The events of [move_machine_steps]: a line needs the message stream, a
    wait needs the synchronous flag, and both the wait and the command need
    a run that is not dry. *)
Lemma move_machine_steps_events (state : PrinterState) (feedrate : float32)
      (s : axes Z) (out : list event) (e : event) :
  move_machine_steps state feedrate s = Some out ->
  In e out ->
  match e with
  | Print _ => msg_stream state = true
  | WaitQueueEmpty =>
      dry_run (cfg state) = false /\ synchronous (cfg state) = true
  | Enqueue _ => dry_run (cfg state) = false
  | _ => False
  end.
Proof.
  rewrite move_machine_steps_eq. intros [= <-].
  destruct (all_zero s); [contradiction|].
  unfold override_events, queue_events, debug_events. cbv zeta.
  destruct (msg_stream state), (dry_run (cfg state)),
    (synchronous (cfg state)), (debug_print (cfg state)),
    (F32.eqb _ F32.zero), (ax2 (steps (built_command state feedrate s)) =? 0);
    cbn [andb app In];
    intuition (subst; auto).
Qed.

Lemma dispatch_events (state state1 : PrinterState) (c : callback)
      (out : list event) (e : event) :
  dispatch state c = Some (state1, out) ->
  In e out ->
  match e with
  | Print _ => msg_stream state = true
  | WaitQueueEmpty =>
      dry_run (cfg state) = false /\ synchronous (cfg state) = true
  | Enqueue _ => dry_run (cfg state) = false
  | _ => False
  end.
Proof.
  assert (M : forall st f ax st1 o,
             cfg st = cfg state -> msg_stream st = msg_stream state ->
             machine_move st f ax = Some (st1, o) -> In e o ->
             match e with
             | Print _ => msg_stream state = true
             | WaitQueueEmpty =>
                 dry_run (cfg state) = false /\ synchronous (cfg state) = true
             | Enqueue _ => dry_run (cfg state) = false
             | _ => False
             end).
  { intros st f ax st1 o Ec Em H Hin.
    destruct (machine_move_spec _ _ _ _ _ H) as [_ [_ Hs]].
    pose proof (move_machine_steps_events _ _ _ _ _ Hs Hin) as R.
    now rewrite Ec, Em in R. }
  destruct c as [feed axis|feed axis|bm|v]; cbn [dispatch].
  - unfold machine_G1. apply M; destruct (F32.ltb F32.zero feed); reflexivity.
  - unfold machine_G0. now apply M.
  - rewrite machine_home_eq.
    destruct (bitmap_has bm GCODE_NUM_AXES); [discriminate|]. cbv zeta.
    destruct (move_machine_steps _ _ _) as [o|] eqn:Hs; [|discriminate].
    cbn [bind]. intros [= _ <-] Hin.
    apply in_app_or in Hin. destruct Hin as [Hin|Hin].
    + destruct (msg_stream state); [|contradiction].
      destruct Hin as [<-|[]]. reflexivity.
    + exact (move_machine_steps_events _ _ _ _ _ Hs Hin).
  - unfold machine_set_speed_factor.
    destruct (below_speed_factor_floor _); intros [= _ <-]; [|contradiction].
    destruct (msg_stream state); [|contradiction].
    intros [<-|[]]. reflexivity.
Qed.

Lemma handle_allowed (state state1 : PrinterState) (c : parser_callback)
      (out : list action) (a : action) :
  handle state c = Some (state1, out) -> In a out -> allowed state a.
Proof.
  destruct c as [c|v|v|v| | |l v r]; cbn [handle].
  - destruct (dispatch state c) as [[s o]|] eqn:H; [|discriminate].
    cbn [bind]. intros [= _ <-] Hin.
    apply in_map_iff in Hin. destruct Hin as [e [<- He]].
    pose proof (dispatch_events _ _ _ _ _ H He) as R.
    destruct e; cbn [allowed]; tauto.
  - unfold machine_dwell.
    destruct (float_to_int _); [|discriminate]. cbn [bind].
    intros [= _ <-]. destruct (dry_run (cfg state)) eqn:Hd; cbn [app In];
      intuition (subst; cbn [allowed]; auto).
  - unfold dummy_set_fanspeed. intros [= _ <-].
    destruct (msg_stream state) eqn:Hm; cbn [In];
      intuition (subst; cbn [allowed]; auto).
  - unfold dummy_set_temperature. intros [= _ <-].
    destruct (msg_stream state) eqn:Hm; cbn [In];
      intuition (subst; cbn [allowed]; auto).
  - unfold dummy_wait_temperature. intros [= _ <-].
    destruct (msg_stream state) eqn:Hm; cbn [In];
      intuition (subst; cbn [allowed]; auto).
  - unfold dummy_disable_motors. intros [= _ <-].
    destruct (msg_stream state) eqn:Hm; cbn [In];
      intuition (subst; cbn [allowed]; auto).
  - unfold special_commands.
    destruct (msg_stream state) eqn:Hm; cbn [negb bind].
    + destruct (float_to_int v) as [code|]; [|discriminate]. cbn [bind].
      destruct (code =? 105); [intros [= _ <-] [<-|[]]; exact Hm|].
      destruct (code =? 114).
      * destruct (reported_mm state AXIS_X); [|discriminate].
        destruct (reported_mm state AXIS_Y); [|discriminate].
        destruct (reported_mm state AXIS_Z); [|discriminate].
        destruct (reported_mm state AXIS_E); [|discriminate].
        cbn [bind]. intros [= _ <-] [<-|[]]. exact Hm.
      * destruct (code =? 115); intros [= _ <-] [<-|[]]; exact Hm.
    + intros [= _ <-] [].
Qed.

Lemma handle_all_allowed (cs : list parser_callback) :
  forall (state state1 : PrinterState) (out : list action) (a : action),
    handle_all state cs = Some (state1, out) -> In a out -> allowed state a.
Proof.
  induction cs as [|c cs IH]; intros state state1 out a H Hin.
  - cbn in H. injection H as _ <-. contradiction.
  - apply handle_all_cons in H.
    destruct H as [s1 [o1 [o2 [H1 [H2 ->]]]]].
    apply in_app_or in Hin. destruct Hin as [Hin|Hin].
    + exact (handle_allowed _ _ _ _ _ H1 Hin).
    + destruct (handle_keeps_config _ _ _ _ H1) as [Ec Em].
      exact (allowed_ext _ _ _ Ec Em (IH _ _ _ _ H2 Hin)).
Qed.

(** X2.  In a dry run no stream of callbacks, dwells included, waits for the
    queue or hands a command to it. *)
Theorem dry_run_never_touches_queue (state state1 : PrinterState)
        (cs : list parser_callback) (out : list action) :
  dry_run (cfg state) = true ->
  handle_all state cs = Some (state1, out) ->
  forall a, In a out -> touches_queue a = false.
Proof.
  intros Hd H a Hin.
  pose proof (handle_all_allowed _ _ _ _ _ H Hin) as R.
  destruct a as [[| |m| |]|r|u| | |m]; cbn [allowed touches_queue] in *;
    congruence.
Qed.

Lemma dry_run_never_touches_queue_witness :
  exists state1 out,
    handle_all (Scenario.initial true true true true) Session.square =
      Some (state1, out)
    /\ forallb (fun a => negb (touches_queue a)) out = true.
Proof.
  destruct (handle_all (Scenario.initial true true true true) Session.square)
    as [[state1 out]|] eqn:H; [|vm_compute in H; discriminate].
  exists state1, out. split; [reflexivity|].
  apply forallb_forall. intros a Hin.
  now rewrite (dry_run_never_touches_queue
                 (Scenario.initial true true true true) _ _ _ eq_refl H a Hin).
Defined.

(** X3.  Without a message stream no stream of callbacks writes a line:
    neither the move handlers nor the dummies nor [special_commands]. *)
Theorem no_stream_no_message (state state1 : PrinterState)
        (cs : list parser_callback) (out : list action) :
  msg_stream state = false ->
  handle_all state cs = Some (state1, out) ->
  forall a, In a out -> writes_message a = false.
Proof.
  intros Hm H a Hin.
  pose proof (handle_all_allowed _ _ _ _ _ H Hin) as R.
  destruct a as [[| |m| |]|r|u| | |m]; cbn [allowed writes_message] in *;
    congruence.
Qed.

Lemma no_stream_no_message_witness :
  exists state1 out,
    handle_all (Session.live false) Session.square = Some (state1, out)
    /\ forallb (fun a => negb (writes_message a)) out = true.
Proof.
  destruct (handle_all (Session.live false) Session.square)
    as [[state1 out]|] eqn:H; [|vm_compute in H; discriminate].
  exists state1, out. split; [reflexivity|].
  apply forallb_forall. intros a Hin.
  now rewrite (no_stream_no_message (Session.live false) _ _ _ eq_refl H
                                    a Hin).
Defined.

(** ** Waiting for the queue *)

Lemma enqueues_after_wait_weaken (out : list action) :
  enqueues_after_wait false out = true -> enqueues_after_wait true out = true.
Proof.
  destruct out as [|[[| |m| |]|r|u| | |m] out]; cbn [enqueues_after_wait andb];
    auto. discriminate.
Qed.

Lemma enqueues_after_wait_app (l1 l2 : list action) :
  forall waited,
    enqueues_after_wait waited l1 = true ->
    enqueues_after_wait false l2 = true ->
    enqueues_after_wait waited (l1 ++ l2) = true.
Proof.
  induction l1 as [|a l1 IH]; intros waited H1 H2.
  - cbn [app]. destruct waited; [now apply enqueues_after_wait_weaken|exact H2].
  - destruct a as [[| |m| |]|r|u| | |m]; cbn [app enqueues_after_wait] in *;
      try (apply IH; assumption).
    apply andb_true_iff in H1. destruct H1 as [-> H1]. cbn [andb]. now apply IH.
Qed.

Lemma move_machine_steps_synchronous (state : PrinterState)
      (feedrate : float32) (s : axes Z) (out : list event) :
  synchronous (cfg state) = true ->
  move_machine_steps state feedrate s = Some out ->
  enqueues_after_wait false (map Motor out) = true.
Proof.
  intros Hs. rewrite move_machine_steps_eq. intros [= <-].
  destruct (all_zero s); [reflexivity|].
  unfold override_events, queue_events, debug_events. cbv zeta. rewrite Hs.
  destruct (F32.eqb _ F32.zero && msg_stream state), (dry_run (cfg state)),
    (debug_print (cfg state) && msg_stream state),
    (ax2 (steps (built_command state feedrate s)) =? 0); reflexivity.
Qed.

Lemma handle_synchronous (state state1 : PrinterState) (c : parser_callback)
      (out : list action) :
  synchronous (cfg state) = true ->
  handle state c = Some (state1, out) ->
  enqueues_after_wait false out = true.
Proof.
  intros Hs.
  assert (M : forall st f ax st1 o,
             cfg st = cfg state ->
             machine_move st f ax = Some (st1, o) ->
             enqueues_after_wait false (map Motor o) = true).
  { intros st f ax st1 o Ec H.
    destruct (machine_move_spec _ _ _ _ _ H) as [_ [_ Hm]].
    eapply move_machine_steps_synchronous; [|exact Hm]. now rewrite Ec. }
  destruct c as [[feed axis|feed axis|bm|v]|v|v|v| | |l v r];
    cbn [handle dispatch].
  - destruct (machine_G1 state feed axis) as [[s o]|] eqn:H; [|discriminate].
    cbn [bind]. intros [= _ <-]. unfold machine_G1 in H.
    eapply M; [|exact H]. destruct (F32.ltb F32.zero feed); reflexivity.
  - destruct (machine_G0 state feed axis) as [[s o]|] eqn:H; [|discriminate].
    cbn [bind]. intros [= _ <-]. eapply M; [|exact H]. reflexivity.
  - rewrite machine_home_eq.
    destruct (bitmap_has bm GCODE_NUM_AXES); [discriminate|]. cbv zeta.
    destruct (move_machine_steps _ _ _) as [o|] eqn:Hm; [|discriminate].
    cbn [bind]. intros [= _ <-]. rewrite map_app.
    apply enqueues_after_wait_app.
    + destruct (msg_stream state); reflexivity.
    + apply (move_machine_steps_synchronous _ _ _ _ Hs Hm).
  - unfold machine_set_speed_factor.
    destruct (below_speed_factor_floor _); cbn [bind]; intros [= _ <-];
      [|reflexivity].
    destruct (msg_stream state); reflexivity.
  - unfold machine_dwell. destruct (float_to_int _); [|discriminate].
    cbn [bind]. intros [= _ <-]. destruct (dry_run (cfg state)); reflexivity.
  - intros [= _ <-]. unfold dummy_set_fanspeed.
    destruct (msg_stream state); reflexivity.
  - intros [= _ <-]. unfold dummy_set_temperature.
    destruct (msg_stream state); reflexivity.
  - intros [= _ <-]. unfold dummy_wait_temperature.
    destruct (msg_stream state); reflexivity.
  - intros [= _ <-]. unfold dummy_disable_motors.
    destruct (msg_stream state); reflexivity.
  - unfold special_commands. destruct (msg_stream state); cbn [negb bind].
    + destruct (float_to_int v) as [code|]; [|discriminate]. cbn [bind].
      destruct (code =? 105); [intros [= _ <-]; reflexivity|].
      destruct (code =? 114).
      * destruct (reported_mm state AXIS_X); [|discriminate].
        destruct (reported_mm state AXIS_Y); [|discriminate].
        destruct (reported_mm state AXIS_Z); [|discriminate].
        destruct (reported_mm state AXIS_E); [|discriminate].
        cbn [bind]. intros [= _ <-]. reflexivity.
      * destruct (code =? 115); intros [= _ <-]; reflexivity.
    + intros [= _ <-]. reflexivity.
Qed.

(** X4.  In synchronous mode every command a stream of callbacks hands to
    the queue comes directly after a wait for the empty queue. *)
Theorem synchronous_waits_before_enqueue (cs : list parser_callback) :
  forall (state state1 : PrinterState) (out : list action),
    synchronous (cfg state) = true ->
    handle_all state cs = Some (state1, out) ->
    enqueues_after_wait false out = true.
Proof.
  induction cs as [|c cs IH]; intros state state1 out Hs H.
  - cbn in H. injection H as _ <-. reflexivity.
  - apply handle_all_cons in H.
    destruct H as [s1 [o1 [o2 [H1 [H2 ->]]]]].
    apply enqueues_after_wait_app.
    + exact (handle_synchronous _ _ _ _ Hs H1).
    + apply (IH s1 state1 o2); [|exact H2].
      destruct (handle_keeps_config _ _ _ _ H1) as [-> _]. exact Hs.
Qed.

Lemma synchronous_waits_before_enqueue_witness :
  exists state1 out,
    handle_all (Scenario.initial false true true true) Session.square =
      Some (state1, out)
    /\ enqueues_after_wait false out = true
    /\ existsb touches_queue out = true.
Proof.
  destruct (handle_all (Scenario.initial false true true true) Session.square)
    as [[state1 out]|] eqn:H; [|vm_compute in H; discriminate].
  exists state1, out. split; [reflexivity|]. split.
  - exact (synchronous_waits_before_enqueue
             Session.square (Scenario.initial false true true true) _ _
             eq_refl H).
  - revert H. vm_compute. intros [= _ <-]. reflexivity.
Defined.

(** X5.  Outside synchronous mode only a dwell waits for the queue: a
    stream without a dwell never waits. *)
Theorem only_dwell_waits (cs : list parser_callback) :
  forall (state state1 : PrinterState) (out : list action),
    synchronous (cfg state) = false ->
    forallb (fun c => negb (is_dwell c)) cs = true ->
    handle_all state cs = Some (state1, out) ->
    ~ In (Motor WaitQueueEmpty) out.
Proof.
  induction cs as [|c cs IH]; intros state state1 out Hs Hnd H Hin.
  - cbn in H. injection H as _ <-. contradiction.
  - cbn [forallb] in Hnd. apply andb_true_iff in Hnd. destruct Hnd as [Hc Hcs].
    apply handle_all_cons in H.
    destruct H as [s1 [o1 [o2 [H1 [H2 ->]]]]].
    apply in_app_or in Hin. destruct Hin as [Hin|Hin].
    + destruct c as [c|v|v|v| | |l v r]; cbn [handle is_dwell negb] in *;
        try discriminate.
      * destruct (dispatch state c) as [[s o]|] eqn:Hd; [|discriminate].
        cbn [bind] in H1. injection H1 as _ <-.
        apply in_map_iff in Hin. destruct Hin as [e [E He]].
        injection E as ->.
        pose proof (dispatch_events _ _ _ _ _ Hd He) as R. cbn in R.
        destruct R as [_ R]. congruence.
      * injection H1 as _ <-. unfold dummy_set_fanspeed in Hin.
        destruct (msg_stream state); cbn [In] in Hin;
          intuition discriminate.
      * injection H1 as _ <-. unfold dummy_set_temperature in Hin.
        destruct (msg_stream state); cbn [In] in Hin;
          intuition discriminate.
      * injection H1 as _ <-. unfold dummy_wait_temperature in Hin.
        destruct (msg_stream state); cbn [In] in Hin;
          intuition discriminate.
      * injection H1 as _ <-. unfold dummy_disable_motors in Hin.
        destruct (msg_stream state); cbn [In] in Hin;
          intuition discriminate.
      * pose proof (handle_allowed state s1 (unprocessed l v r) o1) as A.
        cbn [handle] in A.
        destruct (special_commands state l v r) as [o|] eqn:Hsp;
          [|discriminate].
        cbn [bind] in H1. injection H1 as _ <-.
        unfold special_commands in Hsp.
        destruct (msg_stream state); cbn [negb bind] in Hsp.
        -- destruct (float_to_int v) as [code|]; [|discriminate].
           cbn [bind] in Hsp.
           destruct (code =? 105);
             [injection Hsp as <-; destruct Hin as [E|[]]; discriminate|].
           destruct (code =? 114).
           ++ destruct (reported_mm state AXIS_X); [|discriminate].
              destruct (reported_mm state AXIS_Y); [|discriminate].
              destruct (reported_mm state AXIS_Z); [|discriminate].
              destruct (reported_mm state AXIS_E); [|discriminate].
              cbn [bind] in Hsp. injection Hsp as <-.
              destruct Hin as [E|[]]; discriminate.
           ++ destruct (code =? 115); injection Hsp as <-;
                destruct Hin as [E|[]]; discriminate.
        -- injection Hsp as <-. contradiction.
    + apply (IH s1 state1 o2); auto.
      destruct (handle_keeps_config _ _ _ _ H1) as [-> _]. exact Hs.
Qed.

Lemma only_dwell_waits_witness :
  exists state1 out,
    handle_all (Session.live true)
               [motion (coordinated_move (F32.of_int 50) Scenario.x10);
                motion (go_home 3)] = Some (state1, out)
    /\ ~ In (Motor WaitQueueEmpty) out.
Proof.
  destruct (handle_all (Session.live true)
              [motion (coordinated_move (F32.of_int 50) Scenario.x10);
               motion (go_home 3)])
    as [[state1 out]|] eqn:H; [|vm_compute in H; discriminate].
  exists state1, out. split; [reflexivity|].
  exact (only_dwell_waits
           [motion (coordinated_move (F32.of_int 50) Scenario.x10);
            motion (go_home 3)]
           (Session.live true) _ _ eq_refl eq_refl H).
Defined.

(** ** The position and the steps handed to the queue *)

Lemma submitted_steps_app (a b : list event) :
  submitted_steps (a ++ b) =
  amap2 Z.add (submitted_steps a) (submitted_steps b).
Proof.
  induction a as [|e a IH]; cbn [app submitted_steps].
  - destruct (submitted_steps b). reflexivity.
  - destruct e; try exact IH. rewrite IH.
    unfold amap2. cbn [ax0 ax1 ax2 ax3]. f_equal; lia.
Qed.

Lemma motor_events_app (a b : list action) :
  motor_events (a ++ b) = motor_events a ++ motor_events b.
Proof. apply flat_map_app. Qed.

Lemma motor_events_map (out : list event) : motor_events (map Motor out) = out.
Proof.
  induction out as [|e out IH]; [reflexivity|].
  cbn [map]. change (motor_events (Motor e :: map Motor out))
    with (e :: motor_events (map Motor out)). now rewrite IH.
Qed.

(** [special_commands] writes at most one line. *)
Lemma special_commands_reply (state : PrinterState) (l : Ascii.ascii)
      (v : float32) (r : String.string) (out : list action) :
  special_commands state l v r = Some out ->
  (msg_stream state = false /\ out = [])
  \/ (msg_stream state = true /\ exists code line,
        float_to_int v = Some code /\ out = [Reply line]
        /\ is_ok_reply line =
             (code =? 105) || (code =? 114) || (code =? 115)).
Proof.
  unfold special_commands. destruct (msg_stream state); cbn [negb bind].
  - destruct (float_to_int v) as [code|]; [|discriminate]. cbn [bind].
    intros H. right. split; [reflexivity|]. exists code.
    destruct (code =? 105); [injection H as <-; eexists; eauto|].
    destruct (code =? 114).
    + destruct (reported_mm state AXIS_X); [|discriminate].
      destruct (reported_mm state AXIS_Y); [|discriminate].
      destruct (reported_mm state AXIS_Z); [|discriminate].
      destruct (reported_mm state AXIS_E); [|discriminate].
      cbn [bind] in H. injection H as <-. eexists; eauto.
    + destruct (code =? 115); injection H as <-; eexists; eauto.
  - intros [= <-]. auto.
Qed.

(** The callbacks that are no [motion] leave the state alone and command no
    motor. *)
Lemma handle_other (state state1 : PrinterState) (c : parser_callback)
      (out : list action) :
  (forall m, c <> motion m) ->
  handle state c = Some (state1, out) ->
  state1 = state /\ submitted_steps (motor_events out) = azero.
Proof.
  intros Hc. destruct c as [c|v|v|v| | |l v r]; cbn [handle].
  - now contradiction (Hc c).
  - unfold machine_dwell. destruct (float_to_int _); [|discriminate].
    cbn [bind]. intros [= <- <-]. destruct (dry_run (cfg state)); auto.
  - intros [= <- <-]. unfold dummy_set_fanspeed.
    destruct (msg_stream state); auto.
  - intros [= <- <-]. unfold dummy_set_temperature.
    destruct (msg_stream state); auto.
  - intros [= <- <-]. unfold dummy_wait_temperature.
    destruct (msg_stream state); auto.
  - intros [= <- <-]. unfold dummy_disable_motors.
    destruct (msg_stream state); auto.
  - destruct (special_commands state l v r) as [o|] eqn:H; [|discriminate].
    cbn [bind]. intros [= <- <-].
    destruct (special_commands_reply _ _ _ _ _ H)
      as [[_ ->]|[_ [code [line [_ [-> _]]]]]]; auto.
Qed.

Lemma congruent_refl_sub (p : Z) : congruent 0 (p - p).
Proof. exists 0. lia. Qed.

Lemma congruent_neg (p : Z) : congruent (Int.neg p) (0 - p).
Proof. apply IntFacts.wrap_multiple. Qed.

Lemma congruent_add (a b x y z : Z) :
  congruent a (y - x) -> congruent b (z - y) -> congruent (a + b) (z - x).
Proof. intros [k ->] [l ->]. exists (k + l). lia. Qed.

(** The steps a move hands to the queue when the run is not dry. *)
Lemma machine_move_submitted (state state1 : PrinterState)
      (feedrate : float32) (axis : axes float32) (out : list event) :
  dry_run (cfg state) = false ->
  machine_move state feedrate axis = Some (state1, out) ->
  submitted_steps out =
  amap2 Int.sub (machine_position state1) (machine_position state).
Proof.
  intros Hd H. destruct (machine_move_spec _ _ _ _ _ H) as [_ [_ Hs]].
  rewrite (move_machine_steps_submitted _ _ _ _ Hs), Hd, orb_false_r.
  destruct (all_zero _) eqn:E; [|reflexivity].
  apply all_zero_spec in E. now rewrite E.
Qed.

Lemma handle_tracks (state state1 : PrinterState) (c : parser_callback)
      (out : list action) :
  dry_run (cfg state) = false ->
  handle state c = Some (state1, out) ->
  let sub := submitted_steps (motor_events out) in
  let p0 := machine_position state in
  let p1 := machine_position state1 in
  congruent (ax0 sub) (ax0 p1 - ax0 p0)
  /\ congruent (ax1 sub) (ax1 p1 - ax1 p0)
  /\ congruent (ax2 sub) (ax2 p1 - ax2 p0)
  /\ (homes_extruder c = false -> congruent (ax3 sub) (ax3 p1 - ax3 p0)).
Proof.
  intros Hd H.
  assert (O : (forall m, c <> motion m) ->
              let sub := submitted_steps (motor_events out) in
              let p0 := machine_position state in
              let p1 := machine_position state1 in
              congruent (ax0 sub) (ax0 p1 - ax0 p0)
              /\ congruent (ax1 sub) (ax1 p1 - ax1 p0)
              /\ congruent (ax2 sub) (ax2 p1 - ax2 p0)
              /\ (homes_extruder c = false ->
                  congruent (ax3 sub) (ax3 p1 - ax3 p0))).
  { intros Hc. destruct (handle_other _ _ _ _ Hc H) as [-> ->].
    cbv zeta. cbn [azero ax0 ax1 ax2 ax3].
    auto using congruent_refl_sub. }
  assert (M : forall st f ax o,
             cfg st = cfg state ->
             machine_position st = machine_position state ->
             machine_move st f ax = Some (state1, o) ->
             out = map Motor o ->
             let sub := submitted_steps (motor_events out) in
             let p0 := machine_position state in
             let p1 := machine_position state1 in
             congruent (ax0 sub) (ax0 p1 - ax0 p0)
             /\ congruent (ax1 sub) (ax1 p1 - ax1 p0)
             /\ congruent (ax2 sub) (ax2 p1 - ax2 p0)
             /\ (homes_extruder c = false ->
                 congruent (ax3 sub) (ax3 p1 - ax3 p0))).
  { intros st f ax o Ec Ep Hm ->. cbv zeta. rewrite motor_events_map.
    rewrite (machine_move_submitted st state1 f ax o); [|now rewrite Ec|exact Hm].
    rewrite Ep. unfold amap2. cbn [ax0 ax1 ax2 ax3].
    auto using congruent_sub. }
  destruct c as [[feed axis|feed axis|bm|v]|v|v|v| | |l v r];
    try (apply O; intros m; discriminate).
  - cbn [handle dispatch] in H.
    destruct (machine_G1 state feed axis) as [[s o]|] eqn:G; [|discriminate].
    cbn [bind] in H. injection H as -> <-. unfold machine_G1 in G.
    eapply M; [| |exact G|reflexivity];
      destruct (F32.ltb F32.zero feed); reflexivity.
  - cbn [handle dispatch] in H.
    destruct (machine_G0 state feed axis) as [[s o]|] eqn:G; [|discriminate].
    cbn [bind] in H. injection H as -> <-.
    eapply M; [| |exact G|reflexivity]; reflexivity.
  - cbn [handle dispatch] in H. rewrite machine_home_eq in H.
    destruct (bitmap_has bm GCODE_NUM_AXES); [discriminate|]. cbv zeta in H.
    destruct (move_machine_steps _ _ _) as [o|] eqn:Hs; [|discriminate].
    cbn [bind] in H. injection H as <- <-. cbv zeta.
    rewrite motor_events_map, submitted_steps_app.
    rewrite (move_machine_steps_submitted _ _ _ _ Hs).
    cbn [cfg set_machine_position machine_position]. rewrite Hd, orb_false_r.
    assert (E : (if all_zero (home_differences bm (machine_position state))
                 then azero
                 else home_differences bm (machine_position state)) =
                home_differences bm (machine_position state)).
    { destruct (all_zero _) eqn:E; [|reflexivity].
      apply all_zero_spec in E. now rewrite E. }
    rewrite E.
    assert (P : forall m,
               submitted_steps (if msg_stream state then [Print m] else []) =
               azero)
      by (intros m; destruct (msg_stream state); reflexivity).
    rewrite P. unfold amap2, azero, home_differences, home_position.
    cbn [ax0 ax1 ax2 ax3 homes_extruder]. rewrite !Z.add_0_l.
    repeat split.
    + destruct (bitmap_has bm AXIS_X);
        auto using congruent_neg, congruent_refl_sub.
    + destruct (bitmap_has bm AXIS_Y);
        auto using congruent_neg, congruent_refl_sub.
    + destruct (bitmap_has bm AXIS_Z);
        auto using congruent_neg, congruent_refl_sub.
    + intros ->. apply congruent_refl_sub.
  - cbn [handle dispatch bind] in H. unfold machine_set_speed_factor in H.
    assert (E : machine_position state1 = machine_position state
                /\ submitted_steps (motor_events out) = azero).
    { destruct (below_speed_factor_floor _); cbn [bind] in H;
        injection H as <- <-; [|auto].
      destruct (msg_stream state); auto. }
    destruct E as [E1 E2]. cbv zeta. rewrite E1, E2.
    cbn [azero ax0 ax1 ax2 ax3]. auto using congruent_refl_sub.
Qed.

(** X6.  When the run is not dry, the steps a stream of callbacks hands to
    the queue add up, on X, Y and Z, to the change of [machine_position]
    modulo 2^32; on E they do as long as no home request names the
    extruder. *)
Theorem position_tracks_submitted_steps (cs : list parser_callback) :
  forall (state state1 : PrinterState) (out : list action),
    dry_run (cfg state) = false ->
    handle_all state cs = Some (state1, out) ->
    let sub := submitted_steps (motor_events out) in
    let p0 := machine_position state in
    let p1 := machine_position state1 in
    congruent (ax0 sub) (ax0 p1 - ax0 p0)
    /\ congruent (ax1 sub) (ax1 p1 - ax1 p0)
    /\ congruent (ax2 sub) (ax2 p1 - ax2 p0)
    /\ (forallb (fun c => negb (homes_extruder c)) cs = true ->
        congruent (ax3 sub) (ax3 p1 - ax3 p0)).
Proof.
  induction cs as [|c cs IH]; intros state state1 out Hd H.
  - cbn in H. injection H as <- <-. cbv zeta. cbn [azero ax0 ax1 ax2 ax3].
    auto using congruent_refl_sub.
  - apply handle_all_cons in H.
    destruct H as [s1 [o1 [o2 [H1 [H2 ->]]]]].
    destruct (handle_tracks _ _ _ _ Hd H1) as [A0 [A1 [A2 A3]]].
    assert (Hd1 : dry_run (cfg s1) = false)
      by (destruct (handle_keeps_config _ _ _ _ H1) as [-> _]; exact Hd).
    destruct (IH _ _ _ Hd1 H2) as [B0 [B1 [B2 B3]]].
    cbv zeta. rewrite motor_events_app, submitted_steps_app.
    unfold amap2. cbn [ax0 ax1 ax2 ax3].
    repeat split; try (eapply congruent_add; eassumption).
    cbn [forallb]. intros Hn. apply andb_true_iff in Hn.
    destruct Hn as [Hc Hcs]. apply negb_true_iff in Hc.
    eapply congruent_add; [apply A3|apply B3]; assumption.
Qed.

Lemma position_tracks_submitted_steps_witness :
  exists state1 out,
    handle_all (Session.live true) Session.square = Some (state1, out)
    /\ congruent (ax0 (submitted_steps (motor_events out)))
                 (ax0 (machine_position state1) - 0)
    /\ congruent (ax3 (submitted_steps (motor_events out)))
                 (ax3 (machine_position state1) - 0).
Proof.
  destruct (handle_all (Session.live true) Session.square)
    as [[state1 out]|] eqn:H; [|vm_compute in H; discriminate].
  exists state1, out. split; [reflexivity|].
  destruct (position_tracks_submitted_steps
              Session.square (Session.live true) _ _ eq_refl H)
    as [T0 [_ [_ T3]]].
  split; [exact T0|]. apply T3. reflexivity.
Defined.

(** ** Moves *)

Lemma sub_self (p : axes Z) : amap2 Int.sub p p = azero.
Proof.
  destruct p as [a b c d]. unfold amap2, Int.sub, azero.
  cbn [ax0 ax1 ax2 ax3]. rewrite !Z.sub_diag. reflexivity.
Qed.

(** A move callback as a call of [machine_move]. *)
Lemma dispatch_to_target (state state1 : PrinterState) (c : callback)
      (axis : axes float32) (out : list event) :
  move_target c = Some axis ->
  dispatch state c = Some (state1, out) ->
  exists (start : PrinterState) (feedrate : float32),
    cfg start = cfg state
    /\ machine_position start = machine_position state
    /\ machine_move start feedrate axis = Some (state1, out).
Proof.
  destruct c as [feed ax|feed ax|bm|v]; try discriminate;
    intros [= ->] H; cbn [dispatch] in H.
  - unfold machine_G1 in H. eexists _, _.
    split; [|split; [|exact H]]; destruct (F32.ltb F32.zero feed); reflexivity.
  - exists state, (G0_feedrate state feed). auto.
Qed.

(** X7.  A move to the target of the move before it, coordinated or rapid
    and at whatever feed, hands nothing to the queue, writes nothing and
    leaves the position where it is. *)
Theorem repeated_move_submits_nothing (state state1 : PrinterState)
        (m1 m2 : callback) (axis : axes float32) (out1 : list event) :
  move_target m1 = Some axis ->
  move_target m2 = Some axis ->
  dispatch state m1 = Some (state1, out1) ->
  exists state2,
    dispatch state1 m2 = Some (state2, [])
    /\ machine_position state2 = machine_position state1.
Proof.
  intros T1 T2 H1.
  destruct (dispatch_to_target _ _ _ _ _ T1 H1) as [st [f [Ec [_ Hm]]]].
  destruct (machine_move_spec _ _ _ _ _ Hm) as [Hnew _].
  destruct (handle_keeps_config state state1 (motion m1) (map Motor out1))
    as [Ec1 _]; [cbn [handle]; now rewrite H1|].
  assert (M : forall start feedrate,
             cfg start = cfg state1 ->
             machine_position start = machine_position state1 ->
             machine_move start feedrate axis =
             Some (set_machine_position start (machine_position state1), [])).
  { intros start feedrate Es Ep. rewrite machine_move_eq.
    rewrite (to_machine_position_cfg start st axis) by congruence.
    rewrite Hnew. cbn [bind]. rewrite Ep, sub_self, move_machine_steps_eq.
    reflexivity. }
  destruct m2 as [feed ax|feed ax|bm|v]; try discriminate;
    injection T2 as ->; cbn [dispatch].
  - unfold machine_G1. eexists. split; [apply M|reflexivity];
      destruct (F32.ltb F32.zero feed); reflexivity.
  - unfold machine_G0. eexists. split; [apply M|reflexivity]; reflexivity.
Qed.

Lemma repeated_move_submits_nothing_witness :
  exists state2,
    dispatch (Scenario.at_x10 false false false true (F32.of_int 50))
             (rapid_move (F32.of_int 7) Scenario.x10) = Some (state2, [])
    /\ machine_position state2 = mk_axes 100 0 0 0.
Proof.
  assert (H1 : dispatch (Session.live true)
                        (coordinated_move (F32.of_int 50) Scenario.x10) =
               Some (Scenario.at_x10 false false false true (F32.of_int 50),
                     [Enqueue {| steps := mk_axes 100 0 0 0;
                                 travel_speed := F32.of_int 500 |}]))
    by (vm_compute; reflexivity).
  destruct (repeated_move_submits_nothing
              (Session.live true) _
              (coordinated_move (F32.of_int 50) Scenario.x10)
              (rapid_move (F32.of_int 7) Scenario.x10) Scenario.x10 _
              eq_refl eq_refl H1) as [state2 [H2 P]].
  exists state2. split; [exact H2|]. rewrite P. reflexivity.
Defined.

(** ** The speed factor along a stream *)

Lemma dispatch_speed_factor (state state1 : PrinterState) (c : callback)
      (out : list event) :
  dispatch state c = Some (state1, out) ->
  prog_speed_factor state1 = prog_speed_factor state
  \/ (exists v, c = set_speed_factor v
                /\ prog_speed_factor state1 = requested_speed_factor v
                /\ below_speed_factor_floor (requested_speed_factor v) = false).
Proof.
  destruct c as [feed axis|feed axis|bm|v]; cbn [dispatch].
  - unfold machine_G1. intros H. left.
    apply machine_move_keeps_feedrate in H. destruct H as [_ [-> _]].
    destruct (F32.ltb F32.zero feed); reflexivity.
  - unfold machine_G0. intros H. left.
    apply machine_move_keeps_feedrate in H. tauto.
  - rewrite machine_home_eq.
    destruct (bitmap_has bm GCODE_NUM_AXES); [discriminate|]. cbv zeta.
    rewrite move_machine_steps_eq. cbn [bind]. intros [= <- _]. now left.
  - unfold machine_set_speed_factor.
    destruct (below_speed_factor_floor _) eqn:E; intros [= <- _].
    + now left.
    + right. exists v. auto.
Qed.

(** X8.  The program speed factor never falls below the floor of 0.005: if
    it is not below it before a stream of callbacks, it is not below it
    after, whatever speed factors the stream requests. *)
Theorem speed_factor_stays_above_floor (cs : list parser_callback) :
  forall (state state1 : PrinterState) (out : list action),
    below_speed_factor_floor (prog_speed_factor state) = false ->
    handle_all state cs = Some (state1, out) ->
    below_speed_factor_floor (prog_speed_factor state1) = false.
Proof.
  induction cs as [|c cs IH]; intros state state1 out Hb H.
  - cbn in H. injection H as <- _. exact Hb.
  - apply handle_all_cons in H.
    destruct H as [s1 [o1 [o2 [H1 [H2 _]]]]].
    apply (IH s1 state1 o2); [|exact H2].
    destruct c as [c|v|v|v| | |l v r].
    + cbn [handle] in H1.
      destruct (dispatch state c) as [[s o]|] eqn:Hd; [|discriminate].
      cbn [bind] in H1. injection H1 as <- _.
      destruct (dispatch_speed_factor _ _ _ _ Hd) as [->|[v [_ [-> E]]]];
        assumption.
    + destruct (handle_other state s1 (dwell v) o1) as [-> _];
        [intros m; discriminate|exact H1|exact Hb].
    + destruct (handle_other state s1 (set_fanspeed v) o1) as [-> _];
        [intros m; discriminate|exact H1|exact Hb].
    + destruct (handle_other state s1 (set_temperature v) o1) as [-> _];
        [intros m; discriminate|exact H1|exact Hb].
    + destruct (handle_other state s1 wait_temperature o1) as [-> _];
        [intros m; discriminate|exact H1|exact Hb].
    + destruct (handle_other state s1 disable_motors o1) as [-> _];
        [intros m; discriminate|exact H1|exact Hb].
    + destruct (handle_other state s1 (unprocessed l v r) o1) as [-> _];
        [intros m; discriminate|exact H1|exact Hb].
Qed.

Lemma speed_factor_stays_above_floor_witness :
  exists state1 out,
    handle_all (Session.live true)
               [motion (set_speed_factor (F32.of_ratio (-999) 1000));
                motion (set_speed_factor (F32.of_ratio 1 100));
                motion (set_speed_factor (F32.of_ratio 1 1000))] =
      Some (state1, out)
    /\ prog_speed_factor state1 = F32.of_ratio 1 100
    /\ below_speed_factor_floor (prog_speed_factor state1) = false.
Proof.
  destruct (handle_all (Session.live true)
              [motion (set_speed_factor (F32.of_ratio (-999) 1000));
               motion (set_speed_factor (F32.of_ratio 1 100));
               motion (set_speed_factor (F32.of_ratio 1 1000))])
    as [[state1 out]|] eqn:H; [|vm_compute in H; discriminate].
  exists state1, out. split; [reflexivity|]. split.
  - revert H. vm_compute. intros [= <- _]. reflexivity.
  - exact (speed_factor_stays_above_floor _ (Session.live true) _ _ eq_refl H).
Defined.

(** ** A speed factor that is not a number *)

Lemma mul_nan_r (x : spec_float) : F32.mul x S754_nan = S754_nan.
Proof. destruct x as [s|s| |s m e]; reflexivity. Qed.

Lemma ltb_nan_r (x : spec_float) : F32.ltb x S754_nan = false.
Proof. destruct x as [s|s| |s m e]; reflexivity. Qed.

Lemma computed_travel_speed_nan (spm sx sy : Z) :
  computed_travel_speed spm S754_nan sx sy = S754_nan.
Proof.
  unfold computed_travel_speed.
  destruct (choose_max_abs sx sy >? 0); rewrite mul_nan_r; reflexivity.
Qed.

(** X9.  A speed factor that is NaN passes the floor test and is stored.
    From then on a coordinated move runs at the feedrate NaN, which the
    comparison with [max_feedrate] does not catch, and every command it
    hands to the queue carries the travel speed NaN. *)
Theorem nan_speed_factor_defeats_clamp (state : PrinterState)
        (feed : float32) (axis : axes float32) :
  let state1 := fst (machine_set_speed_factor state S754_nan) in
  state1 = set_prog_speed_factor state S754_nan
  /\ (forall state2 out,
         machine_G1 state1 feed axis = Some (state2, out) ->
         prog_speed_factor state2 = S754_nan
         /\ forall command,
              In (Enqueue command) out -> travel_speed command = S754_nan).
Proof.
  cbv zeta. split; [reflexivity|].
  change (fst (machine_set_speed_factor state S754_nan))
    with (set_prog_speed_factor state S754_nan).
  intros state2 out H. unfold machine_G1 in H.
  set (st := if F32.ltb F32.zero feed
             then set_current_feedrate (set_prog_speed_factor state S754_nan) _
             else set_prog_speed_factor state S754_nan) in H.
  assert (Ep : prog_speed_factor st = S754_nan)
    by (unfold st; destruct (F32.ltb F32.zero feed); reflexivity).
  assert (Ef : G1_feedrate st = S754_nan).
  { unfold G1_feedrate. rewrite Ep.
    change (F32.mul S754_nan (current_feedrate_mm_per_sec st)) with S754_nan.
    now rewrite ltb_nan_r. }
  rewrite Ef in H. split.
  - apply machine_move_keeps_feedrate in H. destruct H as [_ [-> _]]. exact Ep.
  - intros command Hin.
    destruct (machine_move_spec _ _ _ _ _ H) as [_ [_ Hs]].
    destruct (move_machine_steps_enqueued _ _ _ _ _ Hs Hin) as [-> _].
    unfold built_command. cbn [travel_speed].
    rewrite computed_travel_speed_nan. reflexivity.
Qed.

Lemma nan_speed_factor_defeats_clamp_witness :
  machine_G1 (set_prog_speed_factor (Session.live false) S754_nan)
             (F32.of_int 50) Scenario.x10 =
  Some (set_prog_speed_factor
          (Scenario.at_x10 false false false false (F32.of_int 50)) S754_nan,
        [Enqueue {| steps := mk_axes 100 0 0 0; travel_speed := S754_nan |}])
  /\ travel_speed {| steps := mk_axes 100 0 0 0; travel_speed := S754_nan |} =
     S754_nan.
Proof.
  assert (H : machine_G1 (set_prog_speed_factor (Session.live false) S754_nan)
                         (F32.of_int 50) Scenario.x10 =
              Some (set_prog_speed_factor
                      (Scenario.at_x10 false false false false (F32.of_int 50))
                      S754_nan,
                    [Enqueue {| steps := mk_axes 100 0 0 0;
                                travel_speed := S754_nan |}]))
    by (vm_compute; reflexivity).
  split; [exact H|].
  apply (proj2 (proj2 (nan_speed_factor_defeats_clamp
                         (Session.live false) (F32.of_int 50) Scenario.x10)
                      _ _ H)).
  now left.
Defined.

(** ** Homing and the axes it does not name *)

(** X10.  A home request leaves the stored position of every axis it does
    not name as it is, and no command it hands to the queue moves such an
    axis. *)
Theorem home_leaves_other_axes (state state1 : PrinterState)
        (axes_bitmap : Z) (out : list event) (i : nat) :
  (i < GCODE_NUM_AXES)%nat ->
  bitmap_has axes_bitmap i = false ->
  machine_home state axes_bitmap = Some (state1, out) ->
  aget i (machine_position state1) = aget i (machine_position state)
  /\ (forall command,
         In (Enqueue command) out -> aget i (steps command) = Some 0).
Proof.
  intros Hi Hb. rewrite machine_home_eq.
  destruct (bitmap_has axes_bitmap GCODE_NUM_AXES); [discriminate|]. cbv zeta.
  destruct (move_machine_steps _ _ _) as [o|] eqn:Hs; [|discriminate].
  cbn [bind]. intros [= <- <-].
  assert (D : aget i (home_differences axes_bitmap (machine_position state)) =
              Some 0
              /\ aget i (home_position axes_bitmap (machine_position state)) =
                 aget i (machine_position state)).
  { unfold home_differences, home_position, GCODE_NUM_AXES,
      AXIS_X, AXIS_Y, AXIS_Z, AXIS_E in *.
    do 4 (destruct i as [|i];
          [cbn [aget ax0 ax1 ax2 ax3]; rewrite ?Hb; auto|]).
    lia. }
  destruct D as [D1 D2]. split; [exact D2|].
  intros command Hin. apply in_app_or in Hin. destruct Hin as [Hin|Hin].
  - destruct (msg_stream state); [|contradiction].
    destruct Hin as [E|[]]. discriminate.
  - destruct (move_machine_steps_enqueued _ _ _ _ _ Hs Hin) as [-> _].
    exact D1.
Qed.

Lemma home_leaves_other_axes_witness :
  machine_home (Scenario.state false false false false (F32.of_int 50)
                               (mk_axes 100 20 30 70)) 5 =
    Some (Scenario.state false false false false (F32.of_int 50)
                         (mk_axes 0 20 0 70),
          [Enqueue {| steps := mk_axes (-100) 0 (-30) 0;
                      travel_speed := F32.of_int 2000 |}])
  /\ aget 1%nat (mk_axes 0 20 0 70) = aget 1%nat (mk_axes 100 20 30 70).
Proof.
  assert (H : machine_home
                (Scenario.state false false false false (F32.of_int 50)
                                (mk_axes 100 20 30 70)) 5 =
              Some (Scenario.state false false false false (F32.of_int 50)
                                   (mk_axes 0 20 0 70),
                    [Enqueue {| steps := mk_axes (-100) 0 (-30) 0;
                                travel_speed := F32.of_int 2000 |}]))
    by (vm_compute; reflexivity).
  split; [exact H|].
  refine (proj1 (home_leaves_other_axes _ _ 5 _ 1%nat _ _ H)).
  - unfold GCODE_NUM_AXES. lia.
  - reflexivity.
Defined.

(** ** Callbacks that do not move the machine *)

Lemma handle_feedrate (state state1 : PrinterState) (c : parser_callback)
      (out : list action) :
  sets_feedrate c = false ->
  handle state c = Some (state1, out) ->
  current_feedrate_mm_per_sec state1 = current_feedrate_mm_per_sec state.
Proof.
  intros Hc H.
  assert (O : (forall m, c <> motion m) ->
              current_feedrate_mm_per_sec state1 =
              current_feedrate_mm_per_sec state).
  { intros N. now destruct (handle_other _ _ _ _ N H) as [-> _]. }
  destruct c as [[feed axis|feed axis|bm|v]|v|v|v| | |l v r];
    try (apply O; intros m; discriminate);
    cbn [handle dispatch sets_feedrate] in *.
  - destruct (machine_G1 state feed axis) as [[s o]|] eqn:G; [|discriminate].
    cbn [bind] in H. injection H as <- _. unfold machine_G1 in G.
    rewrite Hc in G. apply machine_move_keeps_feedrate in G. tauto.
  - destruct (machine_G0 state feed axis) as [[s o]|] eqn:G; [|discriminate].
    cbn [bind] in H. injection H as <- _.
    apply machine_move_keeps_feedrate in G. tauto.
  - rewrite machine_home_eq in H.
    destruct (bitmap_has bm GCODE_NUM_AXES); [discriminate|]. cbv zeta in H.
    rewrite move_machine_steps_eq in H. cbn [bind] in H.
    injection H as <- _. reflexivity.
  - unfold machine_set_speed_factor in H.
    destruct (below_speed_factor_floor _); cbn [bind] in H;
      injection H as <- _; reflexivity.
Qed.

(** X11.  The stored feedrate is assigned by a coordinated move with a
    positive feed and by nothing else: a stream of rapid moves, coordinated
    moves without a positive feed, homes, speed factors, dwells and the
    other callbacks leaves it as it is. *)
Theorem stored_feedrate_survives (cs : list parser_callback) :
  forall (state state1 : PrinterState) (out : list action),
    forallb (fun c => negb (sets_feedrate c)) cs = true ->
    handle_all state cs = Some (state1, out) ->
    current_feedrate_mm_per_sec state1 = current_feedrate_mm_per_sec state.
Proof.
  induction cs as [|c cs IH]; intros state state1 out Hn H.
  - cbn in H. injection H as <- _. reflexivity.
  - cbn [forallb] in Hn. apply andb_true_iff in Hn. destruct Hn as [Hc Hcs].
    apply negb_true_iff in Hc. apply handle_all_cons in H.
    destruct H as [s1 [o1 [o2 [H1 [H2 _]]]]].
    rewrite (IH _ _ _ Hcs H2). exact (handle_feedrate _ _ _ _ Hc H1).
Qed.

Lemma stored_feedrate_survives_witness :
  exists state1 out,
    handle_all (Scenario.at_x10 false false false false (F32.of_int 50))
               [motion (rapid_move (F32.of_int 100) Scenario.origin);
                motion (coordinated_move F32.zero Scenario.x10);
                motion (go_home 1)] = Some (state1, out)
    /\ current_feedrate_mm_per_sec state1 = F32.of_int 50.
Proof.
  destruct (handle_all (Scenario.at_x10 false false false false (F32.of_int 50))
              [motion (rapid_move (F32.of_int 100) Scenario.origin);
               motion (coordinated_move F32.zero Scenario.x10);
               motion (go_home 1)])
    as [[state1 out]|] eqn:H; [|vm_compute in H; discriminate].
  exists state1, out. split; [reflexivity|].
  exact (stored_feedrate_survives
           [motion (rapid_move (F32.of_int 100) Scenario.origin);
            motion (coordinated_move F32.zero Scenario.x10);
            motion (go_home 1)]
           (Scenario.at_x10 false false false false (F32.of_int 50)) _ _
           eq_refl H).
Defined.

Lemma handle_idle (state state1 : PrinterState) (c : parser_callback)
      (out : list action) :
  moves_machine c = false ->
  handle state c = Some (state1, out) ->
  machine_position state1 = machine_position state
  /\ forall command, ~ In (Motor (Enqueue command)) out.
Proof.
  intros Hc H.
  destruct c as [[feed axis|feed axis|bm|v]|v|v|v| | |l v r];
    try discriminate; cbn [handle dispatch] in H.
  - unfold machine_set_speed_factor in H.
    destruct (below_speed_factor_floor _); cbn [bind] in H;
      injection H as <- <-; (split; [reflexivity|]); intros command.
    + destruct (msg_stream state); cbn [map In]; intuition discriminate.
    + cbn [map In]. tauto.
  - unfold machine_dwell in H. destruct (float_to_int _); [|discriminate].
    cbn [bind] in H. injection H as <- <-. split; [reflexivity|].
    intros command. destruct (dry_run (cfg state)); cbn [app In];
      intuition discriminate.
  - injection H as <- <-. split; [reflexivity|]. intros command.
    unfold dummy_set_fanspeed. destruct (msg_stream state); cbn [In];
      intuition discriminate.
  - injection H as <- <-. split; [reflexivity|]. intros command.
    unfold dummy_set_temperature. destruct (msg_stream state); cbn [In];
      intuition discriminate.
  - injection H as <- <-. split; [reflexivity|]. intros command.
    unfold dummy_wait_temperature. destruct (msg_stream state); cbn [In];
      intuition discriminate.
  - injection H as <- <-. split; [reflexivity|]. intros command.
    unfold dummy_disable_motors. destruct (msg_stream state); cbn [In];
      intuition discriminate.
  - destruct (special_commands state l v r) as [o|] eqn:Hs; [|discriminate].
    cbn [bind] in H. injection H as <- <-. split; [reflexivity|].
    intros command.
    destruct (special_commands_reply _ _ _ _ _ Hs)
      as [[_ ->]|[_ [code [line [_ [-> _]]]]]]; cbn [In];
      intuition discriminate.
Qed.

(** X12.  Speed factors, dwells, the temperature, fan and motor callbacks
    and unprocessed commands never move the machine: a stream without a
    move or a home leaves [machine_position] as it is and hands no command
    to the queue. *)
Theorem idle_callbacks_do_not_move (cs : list parser_callback) :
  forall (state state1 : PrinterState) (out : list action),
    forallb (fun c => negb (moves_machine c)) cs = true ->
    handle_all state cs = Some (state1, out) ->
    machine_position state1 = machine_position state
    /\ forall command, ~ In (Motor (Enqueue command)) out.
Proof.
  induction cs as [|c cs IH]; intros state state1 out Hn H.
  - cbn in H. injection H as <- <-. split; [reflexivity|]. intros command [].
  - cbn [forallb] in Hn. apply andb_true_iff in Hn. destruct Hn as [Hc Hcs].
    apply negb_true_iff in Hc. apply handle_all_cons in H.
    destruct H as [s1 [o1 [o2 [H1 [H2 ->]]]]].
    destruct (handle_idle _ _ _ _ Hc H1) as [P1 N1].
    destruct (IH _ _ _ Hcs H2) as [P2 N2].
    split; [congruence|]. intros command Hin.
    apply in_app_or in Hin. destruct Hin as [Hin|Hin].
    + exact (N1 _ Hin).
    + exact (N2 _ Hin).
Qed.

Lemma idle_callbacks_do_not_move_witness :
  exists state1 out,
    handle_all (Scenario.at_x10 false true true true (F32.of_int 50))
               [dwell (F32.of_int 2); set_temperature (F32.of_int 200);
                motion (set_speed_factor (F32.of_ratio 1 2)); disable_motors;
                unprocessed (Ascii.ascii_of_nat 77) (F32.of_int 105)
                            String.EmptyString] = Some (state1, out)
    /\ machine_position state1 = mk_axes 100 0 0 0.
Proof.
  destruct (handle_all (Scenario.at_x10 false true true true (F32.of_int 50))
              [dwell (F32.of_int 2); set_temperature (F32.of_int 200);
               motion (set_speed_factor (F32.of_ratio 1 2)); disable_motors;
               unprocessed (Ascii.ascii_of_nat 77) (F32.of_int 105)
                           String.EmptyString])
    as [[state1 out]|] eqn:H; [|vm_compute in H; discriminate].
  exists state1, out. split; [reflexivity|].
  exact (proj1 (idle_callbacks_do_not_move
                  [dwell (F32.of_int 2); set_temperature (F32.of_int 200);
                   motion (set_speed_factor (F32.of_ratio 1 2)); disable_motors;
                   unprocessed (Ascii.ascii_of_nat 77) (F32.of_int 105)
                               String.EmptyString]
                  (Scenario.at_x10 false true true true (F32.of_int 50)) _ _
                  eq_refl H)).
Defined.

(** ** Unprocessed commands *)

Lemma reported_mm_defined (state : PrinterState) (i : nat) :
  (i < GCODE_NUM_AXES)%nat -> exists v, reported_mm state i = Some v.
Proof.
  unfold reported_mm, GCODE_NUM_AXES. intros Hi.
  do 4 (destruct i as [|i]; [cbn [aget bind]; eauto|]). lia.
Qed.

(** X13.  Without a message stream [special_commands] writes nothing and
    does not even convert the value, so it is defined for every value.
    With a stream it is defined exactly when the value converts to an int,
    and then writes exactly one line: an [ok] line for the codes 105, 114
    and 115 and the line "didn't understand" with the letter, the code and
    the remaining text for every other code. *)
Theorem unprocessed_command_reply (state : PrinterState) (letter : Ascii.ascii)
        (value : float32) (remaining : String.string) :
  (msg_stream state = false ->
   special_commands state letter value remaining = Some [])
  /\ (msg_stream state = true ->
      float_to_int value = None ->
      special_commands state letter value remaining = None)
  /\ (forall code,
         msg_stream state = true ->
         float_to_int value = Some code ->
         exists line,
           special_commands state letter value remaining = Some [Reply line]
           /\ is_ok_reply line = (code =? 105) || (code =? 114) || (code =? 115)
           /\ (is_ok_reply line = false ->
               line = NotUnderstood letter code remaining)).
Proof.
  unfold special_commands. split; [|split].
  - intros ->. reflexivity.
  - intros -> ->. reflexivity.
  - intros code -> ->. cbn [negb bind].
    destruct (code =? 105); [eexists; split; [reflexivity|]; split;
                             [reflexivity|discriminate]|].
    destruct (code =? 114).
    + destruct (reported_mm_defined state AXIS_X) as [x ->];
        [unfold AXIS_X, GCODE_NUM_AXES; lia|].
      destruct (reported_mm_defined state AXIS_Y) as [y ->];
        [unfold AXIS_Y, GCODE_NUM_AXES; lia|].
      destruct (reported_mm_defined state AXIS_Z) as [z ->];
        [unfold AXIS_Z, GCODE_NUM_AXES; lia|].
      destruct (reported_mm_defined state AXIS_E) as [e ->];
        [unfold AXIS_E, GCODE_NUM_AXES; lia|].
      cbn [bind]. eexists. split; [reflexivity|]. split;
        [reflexivity|discriminate].
    + destruct (code =? 115); eexists; (split; [reflexivity|]); split;
        try reflexivity; try discriminate.
Qed.

Lemma unprocessed_command_reply_witness :
  special_commands (Session.live false) (Ascii.ascii_of_nat 77) S754_nan
                   String.EmptyString = Some []
  /\ special_commands (Session.live true) (Ascii.ascii_of_nat 77) S754_nan
                      String.EmptyString = None
  /\ exists line,
       special_commands (Session.live true) (Ascii.ascii_of_nat 77)
                        (F32.of_ratio 1159 10) String.EmptyString =
         Some [Reply line]
       /\ is_ok_reply line = true.
Proof.
  split; [|split].
  - apply (proj1 (unprocessed_command_reply _ _ _ _)). reflexivity.
  - apply (proj1 (proj2 (unprocessed_command_reply _ _ _ _))); reflexivity.
  - destruct (proj2 (proj2 (unprocessed_command_reply
                              (Session.live true) (Ascii.ascii_of_nat 77)
                              (F32.of_ratio 1159 10) String.EmptyString))
                    115 eq_refl) as [line [H [Hok _]]].
    + vm_compute. reflexivity.
    + exists line. split; [exact H|]. rewrite Hok. reflexivity.
Defined.

(** ** Initialization and exit *)

(** X14.  On a machine that is not initialized,
    [gcode_machine_control_init] returns 0 or 1; it returns 0 exactly when
    the run is dry or the caller is root and [beagleg_init] succeeds, and
    exactly then a state exists afterwards.  The state it creates has the
    given configuration, the position zero on every axis, the speed factor
    1.0, a tenth of the maximum feedrate as stored feedrate and no message
    stream. *)
Theorem init_result (env : Environment) (config : MachineControlConfig) :
  let ret := fst (fst (gcode_machine_control_init env config None)) in
  let after := snd (fst (gcode_machine_control_init env config None)) in
  let arg := F32.mul (acceleration config)
                     (F32.of_int (ax0 (axis_steps_per_mm config))) in
  (ret = 0 \/ ret = 1)
  /\ (ret = 0 <->
      dry_run config = true
      \/ (geteuid env = 0 /\ beagleg_init env arg = 0))
  /\ (ret = 0 <-> after <> None)
  /\ (forall state,
         after = Some state ->
         cfg state = config
         /\ machine_position state = azero
         /\ prog_speed_factor state = F32.of_int 1
         /\ current_feedrate_mm_per_sec state =
            F32.div (max_feedrate config) (F32.of_int 10)
         /\ msg_stream state = false).
Proof.
  cbv zeta. unfold gcode_machine_control_init.
  destruct (dry_run config); cbn [negb fst snd].
  - split; [auto|]. split; [tauto|]. split; [split; [discriminate|auto]|].
    intros state [= <-]. auto.
  - destruct (Z.eqb_spec (geteuid env) 0) as [E|E]; cbn [negb fst snd].
    + destruct (Z.eqb_spec
                  (beagleg_init env
                     (F32.mul (acceleration config)
                              (F32.of_int (ax0 (axis_steps_per_mm config))))) 0)
        as [B|B]; cbn [negb fst snd].
      * split; [auto|]. split; [tauto|].
        split; [split; [discriminate|auto]|].
        intros state [= <-]. auto.
      * split; [auto|]. split; [split; [discriminate|]|].
        { intros [D|[_ D]]; [discriminate|contradiction]. }
        split; [split; [discriminate|intros N; now contradiction N]|].
        discriminate.
    + split; [auto|]. split; [split; [discriminate|]|].
      { intros [D|[D _]]; [discriminate|contradiction]. }
      split; [split; [discriminate|intros N; now contradiction N]|].
      discriminate.
Qed.

(** X15.  [gcode_machine_control_init] calls [beagleg_init] exactly when no
    instance exists, the run is not dry and the caller is root; a caller
    that is not root is refused before the hardware is touched. *)
Theorem init_touches_hardware (env : Environment)
        (config : MachineControlConfig) (existing : option PrinterState) :
  let out := snd (gcode_machine_control_init env config existing) in
  (exists arg, In (BeaglegInit arg) out) <->
  existing = None /\ dry_run config = false /\ geteuid env = 0.
Proof.
  cbv zeta. unfold gcode_machine_control_init.
  destruct existing as [st|]; cbn [snd].
  - split; [intros [arg [H|[]]]; discriminate|intros [H _]; discriminate].
  - destruct (dry_run config); cbn [negb snd].
    + split; [intros [arg []]|intros [_ [H _]]; discriminate].
    + destruct (Z.eqb_spec (geteuid env) 0) as [E|E]; cbn [negb snd].
      * split; [auto|]. intros _.
        destruct (negb (beagleg_init env _ =? 0)); cbn [snd];
          eexists; left; reflexivity.
      * split; [intros [arg [H|[]]]; discriminate|].
        intros [_ [_ H]]. contradiction.
Qed.

(** X16.  After [gcode_machine_control_exit] no instance exists, whatever
    was there before, and the signal flag is as it was; the hardware is
    told to exit exactly when an instance existed and its run was not dry,
    without waiting exactly when a signal had been caught.  A second exit
    changes nothing and only complains. *)
Theorem exit_clears_instance (g : Globals) :
  let g1 := fst (gcode_machine_control_exit g) in
  let out := snd (gcode_machine_control_exit g) in
  s_mstate g1 = None
  /\ caught_signal g1 = caught_signal g
  /\ (In BeaglegExit out <->
      exists state, s_mstate g = Some state /\ dry_run (cfg state) = false
                    /\ caught_signal g = false)
  /\ (In BeaglegExitNowait out <->
      exists state, s_mstate g = Some state /\ dry_run (cfg state) = false
                    /\ caught_signal g = true)
  /\ gcode_machine_control_exit g1 = (g1, [Stderr ExitWithoutInit]).
Proof.
  cbv zeta. unfold gcode_machine_control_exit at 1 2 3 4 5.
  destruct g as [[state|] caught]; cbn [s_mstate caught_signal fst snd].
  - split; [reflexivity|]. split; [reflexivity|].
    split; [|split; [|reflexivity]]; split.
    + intros Hin. exists state.
      destruct (dry_run (cfg state)), caught; cbn [negb In] in Hin;
        intuition congruence.
    + intros [st [E [D C]]]. injection E as <-. rewrite D, C.
      cbn [negb In]. auto.
    + intros Hin. exists state.
      destruct (dry_run (cfg state)), caught; cbn [negb In] in Hin;
        intuition congruence.
    + intros [st [E [D C]]]. injection E as <-. rewrite D, C.
      cbn [negb In]. auto.
  - split; [reflexivity|]. split; [reflexivity|].
    split; [|split; [|reflexivity]]; split;
      try (intros [H|[]]; discriminate);
      intros [st [H _]]; discriminate.
Qed.

(** ** Running a stream *)

Lemma handle_all_app (cs1 cs2 : list parser_callback) :
  forall (state : PrinterState),
    handle_all state (cs1 ++ cs2) =
    ('(state1, out1) <- handle_all state cs1 ;;
     '(state2, out2) <- handle_all state1 cs2 ;;
     Some (state2, out1 ++ out2)).
Proof.
  induction cs1 as [|c cs1 IH]; intros state.
  - cbn [app handle_all bind].
    destruct (handle_all state cs2) as [[s o]|]; reflexivity.
  - cbn [app handle_all].
    destruct (handle state c) as [[s1 o1]|]; [|reflexivity]. cbn [bind].
    rewrite IH.
    destruct (handle_all s1 cs1) as [[s2 o2]|]; [|reflexivity]. cbn [bind].
    destruct (handle_all s2 cs2) as [[s3 o3]|]; [|reflexivity]. cbn [bind].
    now rewrite app_assoc.
Qed.

Lemma set_msg_stream_same (state : PrinterState) (m : bool) :
  msg_stream state = m -> set_msg_stream (set_msg_stream state false) m = state.
Proof. destruct state. cbn. intros ->. reflexivity. Qed.

Lemma set_msg_stream_false (state : PrinterState) :
  msg_stream state = false -> set_msg_stream state false = state.
Proof. destruct state. cbn. intros ->. reflexivity. Qed.

(** X17.  The return value of [gcode_machine_control_from_stream] tells what
    happened: 1 exactly when the machine is not initialized or the input
    does not open, 2 exactly when a signal was caught while reading, 0
    otherwise.  Whenever the input was read, the message stream is detached
    afterwards and the signal flag tells whether a signal was caught; an
    uninitialized machine is left as it is. *)
Theorem from_stream_return_value (io : Stream) (g g1 : Globals) (ret : Z)
        (out : list action) :
  gcode_machine_control_from_stream io g = Some (ret, g1, out) ->
  (ret = 1 <-> s_mstate g = None \/ gcode_opens io = false)
  /\ (ret = 2 <->
      s_mstate g <> None /\ gcode_opens io = true /\ signal_after io <> None)
  /\ (ret = 0 <->
      s_mstate g <> None /\ gcode_opens io = true /\ signal_after io = None)
  /\ (ret <> 1 ->
      exists state,
        s_mstate g1 = Some state /\ msg_stream state = false
        /\ caught_signal g1 = signalled io)
  /\ (s_mstate g = None -> g1 = g /\ out = [Stderr NotInitialized]).
Proof.
  unfold gcode_machine_control_from_stream, signalled.
  destruct (s_mstate g) as [state|] eqn:Hs.
  - destruct (gcode_opens io); cbn [negb].
    + destruct (handle_all _ _) as [[s o]|]; [|discriminate]. cbn [bind].
      destruct (signal_after io) as [n|]; intros [= <- <- <-];
        cbn [s_mstate caught_signal];
        repeat split; try discriminate; try tauto; try congruence;
        try (intros [H|H]; discriminate);
        try (intros _; eexists; repeat split; reflexivity);
        try (intros [_ [_ H]]; congruence).
    + intros [= <- <- <-].
      repeat split; try discriminate; try tauto; try congruence;
        try (intros [_ [H _]]; discriminate).
  - intros [= <- <- <-].
    repeat split; try discriminate; try tauto; try congruence;
      try (intros [H _]; congruence).
Qed.

Lemma from_stream_return_value_witness :
  exists g1 out,
    gcode_machine_control_from_stream
      (Session.stream [Session.square; Session.square] (Some 1%nat))
      (Session.started (Session.live false)) = Some (2, g1, out)
    /\ caught_signal g1 = true.
Proof.
  destruct (gcode_machine_control_from_stream
              (Session.stream [Session.square; Session.square] (Some 1%nat))
              (Session.started (Session.live false)))
    as [[[ret g1] out]|] eqn:H; [|vm_compute in H; discriminate].
  destruct (from_stream_return_value _ _ _ _ _ H) as [_ [R2 [_ [R _]]]].
  assert (E : ret = 2).
  { apply R2. repeat split; discriminate. }
  subst ret. exists g1, out. split; [reflexivity|].
  destruct (R ltac:(discriminate)) as [state [_ [_ C]]]. exact C.
Defined.

(** X18.  Without a signal, reading an input in two runs gives the machine
    state and the actions of reading it in one: the state survives between
    the runs and the message stream is attached again.  (When no output
    descriptor is given, this needs a state without a stream left over.) *)
Theorem from_stream_splits (io : Stream) (g g1 g2 : Globals)
        (state : PrinterState) (l1 l2 : list (list parser_callback))
        (ret2 : Z) (out1 out2 : list action) :
  s_mstate g = Some state ->
  (0 <= output_fd io \/ msg_stream state = false) ->
  gcode_opens io = true ->
  signal_after io = None ->
  gcode_machine_control_from_stream (with_lines io l1) g =
    Some (0, g1, out1) ->
  gcode_machine_control_from_stream (with_lines io l2) g1 =
    Some (ret2, g2, out2) ->
  gcode_machine_control_from_stream (with_lines io (l1 ++ l2)) g =
    Some (ret2, g2, out1 ++ out2).
Proof.
  intros Hs Hfd Ho Hn.
  unfold gcode_machine_control_from_stream, lines_read, signalled, with_lines.
  cbn [output_fd output_opens gcode_opens lines signal_after].
  rewrite Hs, Ho, Hn. cbn [negb].
  set (start := if output_fd io >=? 0
                then set_msg_stream state (output_opens io) else state).
  rewrite concat_app, handle_all_app.
  destruct (handle_all start (concat l1)) as [[sA oA]|] eqn:HA; [|discriminate].
  cbn [bind]. intros [= <- <-]. cbn [s_mstate caught_signal].
  assert (E : (if output_fd io >=? 0
               then set_msg_stream (set_msg_stream sA false) (output_opens io)
               else set_msg_stream sA false) = sA).
  { destruct (handle_all_keeps_config _ _ _ _ HA) as [_ Em].
    unfold start in Em. destruct (output_fd io >=? 0) eqn:F.
    - apply set_msg_stream_same. exact Em.
    - apply set_msg_stream_false. rewrite Em.
      destruct Hfd as [Hfd|Hfd]; [|exact Hfd].
      rewrite Z.geb_leb in F. apply Z.leb_gt in F. lia. }
  rewrite E.
  destruct (handle_all sA (concat l2)) as [[sB oB]|]; [|discriminate].
  cbn [bind]. intros [= <- <- <-]. reflexivity.
Qed.

Lemma from_stream_splits_witness :
  gcode_machine_control_from_stream
    (Session.stream ([[set_fanspeed (F32.of_int 255)]] ++ [[disable_motors]])
                    None)
    (Session.started (Session.live false)) =
  Some (0, Session.started (Session.live false),
        [Reply (NotImplementedFanspeed (F32.of_int 255))]
          ++ [Reply NotImplementedDisableMotors]).
Proof.
  apply (from_stream_splits
           (Session.stream [] None) (Session.started (Session.live false))
           (Session.started (Session.live false))
           (Session.started (Session.live false))
           (Session.live false)
           [[set_fanspeed (F32.of_int 255)]] [[disable_motors]] 0).
  - reflexivity.
  - left. discriminate.
  - reflexivity.
  - reflexivity.
  - reflexivity.
  - reflexivity.
Defined.

(** X19.  After a run that a signal interrupted (return value 2), the exit
    of a machine that is not run dry skips the queue: it calls
    [beagleg_exit_nowait]; after a run that read all its input (return
    value 0) it calls [beagleg_exit].  Either way no instance is left. *)
Theorem interrupted_exit_skips_queue (io : Stream) (g g1 : Globals)
        (state : PrinterState) (ret : Z) (out : list action) :
  s_mstate g = Some state ->
  dry_run (cfg state) = false ->
  gcode_machine_control_from_stream io g = Some (ret, g1, out) ->
  (ret = 2 ->
   snd (gcode_machine_control_exit g1) =
     [Stderr SkippingQueue; BeaglegExitNowait])
  /\ (ret = 0 -> snd (gcode_machine_control_exit g1) = [BeaglegExit])
  /\ s_mstate (fst (gcode_machine_control_exit g1)) = None.
Proof.
  intros Hs Hd. unfold gcode_machine_control_from_stream. rewrite Hs.
  set (start := if output_fd io >=? 0
                then set_msg_stream state (output_opens io) else state).
  assert (Ec : cfg start = cfg state)
    by (unfold start; destruct (output_fd io >=? 0); reflexivity).
  destruct (gcode_opens io); cbn [negb].
  - destruct (handle_all start _) as [[s o]|] eqn:H; [|discriminate].
    cbn [bind]. intros [= <- <- <-].
    destruct (handle_all_keeps_config _ _ _ _ H) as [Es _].
    unfold gcode_machine_control_exit. cbn [s_mstate caught_signal cfg
                                             set_msg_stream fst snd].
    rewrite Es, Ec, Hd. cbn [negb].
    destruct (signalled io); repeat split; try reflexivity; discriminate.
  - intros [= <- <- <-]. unfold gcode_machine_control_exit.
    cbn [s_mstate caught_signal fst snd].
    repeat split; discriminate.
Qed.

Lemma interrupted_exit_skips_queue_witness :
  exists g1 out,
    gcode_machine_control_from_stream
      (Session.stream [Session.square; Session.square] (Some 1%nat))
      (Session.started (Session.live false)) = Some (2, g1, out)
    /\ snd (gcode_machine_control_exit g1) =
         [Stderr SkippingQueue; BeaglegExitNowait].
Proof.
  destruct (gcode_machine_control_from_stream
              (Session.stream [Session.square; Session.square] (Some 1%nat))
              (Session.started (Session.live false)))
    as [[[ret g1] out]|] eqn:H; [|vm_compute in H; discriminate].
  assert (E : ret = 2) by (revert H; vm_compute; congruence).
  subst ret. exists g1, out. split; [reflexivity|].
  exact (proj1 (interrupted_exit_skips_queue
                  _ (Session.started (Session.live false)) g1
                  (Session.live false) 2 out eq_refl eq_refl H) eq_refl).
Defined.

(** X20.  When the input does not open, the run returns 1 after it has
    attached the message stream and does not detach it: the state keeps the
    stream, and a later run that is given no output descriptor handles its
    input with that stream still attached. *)
Theorem failed_open_keeps_stream (io io2 : Stream) (g : Globals)
        (state : PrinterState) :
  s_mstate g = Some state ->
  0 <= output_fd io ->
  gcode_opens io = false ->
  output_fd io2 < 0 ->
  gcode_opens io2 = true ->
  let kept := set_msg_stream state (output_opens io) in
  let g1 := {| s_mstate := Some kept; caught_signal := caught_signal g |} in
  gcode_machine_control_from_stream io g =
    Some (1, g1, [Stderr OpeningGcodeStream])
  /\ gcode_machine_control_from_stream io2 g1 =
     ('(state2, out) <- handle_all kept (concat (lines_read io2)) ;;
      Some (if signalled io2 then 2 else 0,
            {| s_mstate := Some (set_msg_stream state2 false);
               caught_signal := signalled io2 |},
            out)).
Proof.
  intros Hs Hfd Ho Hfd2 Ho2. cbv zeta.
  unfold gcode_machine_control_from_stream. cbn [s_mstate].
  rewrite Hs, Ho, Ho2. cbn [negb].
  assert (F1 : (output_fd io >=? 0) = true)
    by (rewrite Z.geb_leb; apply Z.leb_le; exact Hfd).
  assert (F2 : (output_fd io2 >=? 0) = false)
    by (rewrite Z.geb_leb; apply Z.leb_gt; exact Hfd2).
  rewrite F1, F2. split; reflexivity.
Qed.

Lemma failed_open_keeps_stream_witness :
  gcode_machine_control_from_stream
    {| output_fd := -1; output_opens := false; gcode_opens := true;
       lines := [[set_fanspeed (F32.of_int 255)]]; signal_after := None |}
    {| s_mstate := Some (Session.live true); caught_signal := false |} =
  Some (0, Session.started (Session.live false),
        [Reply (NotImplementedFanspeed (F32.of_int 255))]).
Proof.
  refine (eq_trans
            (proj2 (failed_open_keeps_stream
                      {| output_fd := 1; output_opens := true;
                         gcode_opens := false; lines := [];
                         signal_after := None |}
                      {| output_fd := -1; output_opens := false;
                         gcode_opens := true;
                         lines := [[set_fanspeed (F32.of_int 255)]];
                         signal_after := None |}
                      (Session.started (Session.live false))
                      (Session.live false) eq_refl _ eq_refl _ eq_refl)) _).
  - discriminate.
  - reflexivity.
  - reflexivity.
Defined.
